(** * objregex: a regular-expression engine over sequences of objects

    Shallow embedding of [objregex.py] and the properties of its matching
    engine.

    Python values the engine manipulates are modelled as follows.
    - A sequence of items is a [list Item]; [==] on items is the method of
      the class [PyEq].
    - Integers are unbounded: [Z].
    - A [Match] instance is a record that carries, besides its three
      attributes, the identity of the object ([oid]).  Identities are drawn
      from a counter threaded through every computation, because the
      engine compares [Match] objects with [==] and the class inherits
      [object.__eq__], which is identity.
    - Exceptions are an explicit outcome of a computation ([Raise]).
    - A generator is its saved local state together with a [next] function.
*)

From Stdlib Require Import ZArith List Bool Lia.
Import ListNotations.
Open Scope Z_scope.

(** ** Computations: allocation counter and exceptions *)

(** The exceptions the engine can meet: [NoMoreItems] (line 4) and the
    [IndexError] of an out-of-range subscript. *)
Inductive exn : Type :=
| NoMoreItems
| IndexError.

Inductive outcome (A : Type) : Type :=
| Ok (a : A)
| Raise (e : exn).
Arguments Ok {A} a.
Arguments Raise {A} e.

(** A computation reads the next free object identity and returns an outcome
    with the updated counter.  The counter survives an exception. *)
Definition Py (A : Type) : Type := nat -> outcome A * nat.

Definition ret {A : Type} (a : A) : Py A := fun h => (Ok a, h).

Definition raise {A : Type} (e : exn) : Py A := fun h => (Raise e, h).

Definition bind {A B : Type} (c : Py A) (k : A -> Py B) : Py B :=
  fun h =>
    match c h with
    | (Ok a, h') => k a h'
    | (Raise e, h') => (Raise e, h')
    end.

(** [try: c  except NoMoreItems: handler] *)
Definition try_except_NoMoreItems {A : Type} (c : Py A) (handler : Py A) : Py A :=
  fun h =>
    match c h with
    | (Raise NoMoreItems, h') => handler h'
    | r => r
    end.

Declare Scope py_scope.
Delimit Scope py_scope with py.
Notation "x <- c ;; k" := (bind c (fun x => k))
  (at level 100, c at next level, right associativity) : py_scope.
Open Scope py_scope.

(** [true] exactly on the outcome "raised [NoMoreItems]". *)
Definition raised_NoMoreItems {A : Type} (r : outcome A * nat) : bool :=
  match fst r with
  | Raise NoMoreItems => true
  | _ => false
  end.

(** [==] between items ([Item.__eq__]); nothing is assumed of it. *)
Class PyEq (A : Type) : Type := py_eq : A -> A -> bool.

#[export] Instance Z_PyEq : PyEq Z := Z.eqb.

(** [len(items)] *)
Definition len {Item : Type} (items : list Item) : Z := Z.of_nat (length items).

(** [items[i]] for a list and an integer [i]: a negative index counts from
    the end, and an index outside [-len, len) raises [IndexError]. *)
Definition seq_getitem {Item : Type} (items : list Item) (i : Z) : Py Item :=
  let j := if i <? 0 then i + len items else i in
  if (0 <=? j) && (j <? len items) then
    match nth_error items (Z.to_nat j) with
    | Some x => ret x
    | None => raise IndexError
    end
  else raise IndexError.

(** A bound [i] of a slice of [items], as [slice.indices] clamps it: a
    negative bound counts from the end, and the result is brought into
    [0, len]. *)
Definition slice_index {Item : Type} (items : list Item) (i : Z) : nat :=
  Z.to_nat (if i <? 0 then Z.max (i + len items) 0 else Z.min i (len items)).

(** [items[lo:hi]] *)
Definition seq_slice {Item : Type} (items : list Item) (lo hi : option Z)
  : list Item :=
  let a := match lo with Some i => slice_index items i | None => O end in
  let b := match hi with Some i => slice_index items i | None => length items end in
  skipn a (firstn b items).

(** ** class Match (lines 9-65) *)

Module Match.
Section Class.
Context {Item : Type}.

Record t : Type := mk {
  oid : nat;
  items : list Item;
  start : Z;
  end_ : Z
}.

(** [Match(items, start, end)]: a new object. *)
Definition __init__ (items : list Item) (start end_ : Z) : Py t :=
  fun h => (Ok (mk h items start end_), S h).

(** [self[n]] *)
Definition __getitem__ (self : t) (n : Z) : Py Item :=
  seq_getitem (items self) (start self + n).

Definition has_next (self : t) : bool :=
  end_ self <? len (items self).

Definition next (self : t) : Py Item :=
  if end_ self >=? len (items self) then raise NoMoreItems
  else seq_getitem (items self) (end_ self).

(** [self.items[self.end:]] *)
Definition rest (self : t) : list Item :=
  seq_slice (items self) (Some (end_ self)) None.

(** [self.items[self.start:self.end]] *)
Definition matched (self : t) : list Item :=
  seq_slice (items self) (Some (start self)) (Some (end_ self)).

Definition advance (self : t) (n : Z) : Py t :=
  __init__ (items self) (start self) (end_ self + n).

(** [a is b] *)
Definition is_ (a b : t) : bool := Nat.eqb (oid a) (oid b).

(** [a == b].  The class defines no [__eq__] (the method of line 61 is
    called [__equals__], a name Python never looks up), so [==] is
    [object.__eq__]: identity. *)
Definition __eq__ (a b : t) : bool := is_ a b.

(** The method of lines 61-62 with [other] a [Match]; list [==] compares
    lengths and then the items pairwise. *)
Fixpoint list_eq `{PyEq Item} (xs ys : list Item) : bool :=
  match xs, ys with
  | [], [] => true
  | x :: xs', y :: ys' => py_eq x y && list_eq xs' ys'
  | _, _ => false
  end.

Definition __equals__ `{PyEq Item} (self other : t) : bool :=
  list_eq (items self) (items other)
  && (start self =? start other)
  && (end_ self =? end_ other).

(** Truth value of an instance, as [if match:] tests it: the class defines
    neither [__bool__] nor [__len__], so every instance is true. *)
Definition truth (self : t) : bool := true.

End Class.
Arguments t : clear implicits.
End Match.

(** ** Matchers and the engine (lines 68-101) *)

Section Engine.
Context {Item : Type} `{PyEq Item}.

(** [MatcherResultType = Union[bool, int, Optional[Match]]] *)
Inductive MatcherResultType : Type :=
| RBool (b : bool)
| RInt (n : Z)
| RNone
| RMatch (m : Match.t Item).

(** [MatcherType = Union[Item, Callable[[Match], MatcherResultType]]];
    [callable(next_matcher)] is the test on the constructor. *)
Inductive MatcherType : Type :=
| Literal (v : Item)
| Callable (f : Match.t Item -> Py MatcherResultType).

(** [result == 0 or result is None] for a result that is no [Match]
    ([False == 0] holds). *)
Definition is_zero_or_None (result : MatcherResultType) : bool :=
  match result with
  | RBool b => negb b
  | RInt n => n =? 0
  | RNone => true
  | RMatch _ => false
  end.

(** The integer [match.end + result] adds ([True] is [1]). *)
Definition int_of (result : MatcherResultType) : Z :=
  match result with
  | RBool true => 1
  | RInt n => n
  | _ => 0
  end.

Definition _test_one (next_matcher : MatcherType) (match_ : Match.t Item)
  : Py (option (Match.t Item)) :=
  match next_matcher with
  | Literal v =>
      cond <- (if Match.has_next match_
               then (x <- Match.next match_ ;; ret (py_eq x v))
               else ret false) ;;
      if (cond : bool)
      then (m <- Match.advance match_ 1 ;; ret (Some m))
      else ret None
  | Callable f =>
      result <- try_except_NoMoreItems (f match_) (ret RNone) ;;
      match result with
      | RMatch m => ret (Some m)
      | _ =>
          if is_zero_or_None result then ret None
          else (m <- Match.advance match_ (int_of result) ;; ret (Some m))
      end
  end.

(** The [for] loop of [_general_match] (lines 97-100), from the current
    [match]. *)
Fixpoint _general_match_loop (matchers : list MatcherType) (match_ : Match.t Item)
  : Py (Match.t Item) :=
  match matchers with
  | [] => ret match_
  | matcher :: rest =>
      new_match <- _test_one matcher match_ ;;
      match new_match with
      | None => ret match_
      | Some m => _general_match_loop rest m
      end
  end.

Definition _general_match (matchers : list MatcherType) (items : list Item) (start : Z)
  : Py (Match.t Item) :=
  match_ <- Match.__init__ items start start ;;
  _general_match_loop matchers match_.

(** ** User functions (lines 107-184) *)

(** [lambda match: True] *)
Definition any : MatcherType :=
  Callable (fun match_ => ret (RBool true)).

(** [lambda match: match.end == 0] *)
Definition start : MatcherType :=
  Callable (fun match_ => ret (RBool (Match.end_ match_ =? 0))).

(** [lambda match: match.end == len(match.items)] *)
Definition end_ : MatcherType :=
  Callable (fun match_ =>
    ret (RBool (Match.end_ match_ =? len (Match.items match_)))).

(** [lambda m: p(m.next)]: the shape of the predicate of line 192. *)
Definition on_next (p : Item -> bool) : MatcherType :=
  Callable (fun m => x <- Match.next m ;; ret (RBool (p x))).

Definition optional (matcher : MatcherType) : MatcherType :=
  Callable (fun old_match =>
    new_match <- _test_one matcher old_match ;;
    match new_match with
    | None => ret (RMatch old_match)
    | Some m => ret (RMatch m)
    end).

(** First loop of [repeat]'s wrapper (lines 137-140), [n] iterations left:
    [None] is the wrapper's [return None]. *)
Fixpoint repeat_required (n : nat) (matcher : MatcherType) (match_ : Match.t Item)
  : Py (option (Match.t Item)) :=
  match n with
  | O => ret (Some match_)
  | S n' =>
      r <- _test_one matcher match_ ;;
      match r with
      | None => ret None
      | Some m => repeat_required n' matcher m
      end
  end.

(** Second loop of the wrapper (lines 141-146), [n] iterations left; the
    value is the [match] the wrapper returns. *)
Fixpoint repeat_greedy (n : nat) (matcher : MatcherType) (match_ : Match.t Item)
  : Py (Match.t Item) :=
  match n with
  | O => ret match_
  | S n' =>
      new_match <- _test_one matcher match_ ;;
      match new_match with
      | None => ret match_
      | Some m =>
          if Match.__eq__ m match_ then ret match_
          else repeat_greedy n' matcher m
      end
  end.

(** [range(k)] runs [Z.to_nat k] times: none for a negative [k]. *)
Definition repeat (matcher : MatcherType) (min_n : Z) (max_n : option Z) : MatcherType :=
  Callable (fun match_ =>
    r <- repeat_required (Z.to_nat min_n) matcher match_ ;;
    match r with
    | None => ret RNone
    | Some m =>
        let extra :=
          match max_n with
          | Some mx => mx - min_n
          | None => len (Match.items m) - Match.end_ m
          end in
        m' <- repeat_greedy (Z.to_nat extra) matcher m ;;
        ret (RMatch m')
    end).

Definition one_or_more (matcher : MatcherType) : MatcherType :=
  repeat matcher 1 None.

Definition zero_or_more (matcher : MatcherType) : MatcherType :=
  repeat matcher 0 None.

Definition fullmatch (matchers : list MatcherType) (items : list Item)
  : Py (option (Match.t Item)) :=
  match_ <- _general_match matchers items 0 ;;
  ret (if Match.truth match_ && negb (Match.has_next match_)
       then Some match_ else None).

(** The generator object [findall(matchers, items)]: its arguments and the
    local [start].  Execution is suspended either before the first statement
    or at the [yield]; in the second case [g_start] already holds the value
    the assignment after the [yield] gives it on resumption. *)
Record Generator : Type := mkGenerator {
  g_matchers : list MatcherType;
  g_items : list Item;
  g_start : Z
}.

Definition findall (matchers : list MatcherType) (items : list Item) : Generator :=
  mkGenerator matchers items 0.

(** The [while] loop (lines 169-175) run up to the next [yield], with
    [remaining = len(items) - start] as the number of offsets left: the test
    [start < len(items)] holds exactly when it is not zero, and an iteration
    that does not yield leaves one less.  [None] is the end of the body
    ([StopIteration] for the caller). *)
Fixpoint findall_loop (remaining : nat) (matchers : list MatcherType)
  (items : list Item) (start : Z) : Py (option (Match.t Item * Generator)) :=
  match remaining with
  | O => ret None
  | S remaining' =>
      match_ <- _general_match matchers items start ;;
      if Match.truth match_
      then ret (Some (match_, mkGenerator matchers items (Match.end_ match_)))
      else findall_loop remaining' matchers items (start + 1)
  end.

(** [next(g)]: the yielded match and the generator afterwards, or [None] for
    [StopIteration]. *)
Definition next (g : Generator) : Py (option (Match.t Item * Generator)) :=
  findall_loop (Z.to_nat (len (g_items g) - g_start g))
    (g_matchers g) (g_items g) (g_start g).

(** The first [n] items of the generator, [list(itertools.islice(g, n))]. *)
Fixpoint islice (n : nat) (g : Generator) : Py (list (Match.t Item)) :=
  match n with
  | O => ret []
  | S n' =>
      r <- next g ;;
      match r with
      | None => ret []
      | Some (m, g') => ms <- islice n' g' ;; ret (m :: ms)
      end
  end.

Definition search (matchers : list MatcherType) (items : list Item)
  : Py (option (Match.t Item)) :=
  r <- next (findall matchers items) ;;
  match r with
  | Some (m, _) => ret (Some m)
  | None => ret None
  end.

End Engine.

Arguments MatcherResultType : clear implicits.
Arguments MatcherType : clear implicits.
Arguments Generator : clear implicits.

(** ** Predicates used by the statements *)

Section Specification.
Context {Item : Type} `{PyEq Item}.

(** A computation that never ends with [NoMoreItems]. *)
Definition quiet {A : Type} (c : Py A) : Prop :=
  forall h, raised_NoMoreItems (c h) = false.

(** [0 <= start <= end <= len(items)]. *)
Definition in_bounds (m : Match.t Item) : Prop :=
  0 <= Match.start m /\ Match.start m <= Match.end_ m
  /\ Match.end_ m <= len (Match.items m).

(** [s'] has the sequence and the start of [s], and an end between the end
    of [s] and the length of the sequence. *)
Definition extends (s s' : Match.t Item) : Prop :=
  Match.items s' = Match.items s /\ Match.start s' = Match.start s
  /\ Match.end_ s <= Match.end_ s' /\ Match.end_ s' <= len (Match.items s).

(** A step function that respects the sequence: on a state within bounds it
    raises nothing but [NoMoreItems], the count it reports is between 0 and
    the number of items left, and the state it returns extends its
    argument. *)
Definition respectful_step (f : Match.t Item -> Py (MatcherResultType Item)) : Prop :=
  forall s h, in_bounds s ->
    match fst (f s h) with
    | Ok (RMatch m) => extends s m
    | Ok r =>
        is_zero_or_None r = true
        \/ 0 <= int_of r <= len (Match.items s) - Match.end_ s
    | Raise NoMoreItems => True
    | Raise IndexError => False
    end.

Definition respectful (matcher : MatcherType Item) : Prop :=
  match matcher with
  | Literal _ => True
  | Callable f => respectful_step f
  end.

(** Every attempt of the sequential matcher at an offset inside the
    sequence returns a state that ends after that offset. *)
Definition progresses (matchers : list (MatcherType Item)) (items : list Item) : Prop :=
  forall st h, 0 <= st < len items ->
    exists m h', _general_match matchers items st h = (Ok m, h')
                 /\ st < Match.end_ m.

(** How many literals of [vs], from the first, equal the items at the same
    positions ([item == literal], the comparison of line 76). *)
Fixpoint common_prefix (vs items : list Item) : nat :=
  match vs, items with
  | v :: vs', x :: items' =>
      if py_eq x v then S (common_prefix vs' items') else O
  | _, _ => O
  end.

(** How many items, from the first, equal the literal [v]. *)
Fixpoint leading (v : Item) (items : list Item) : nat :=
  match items with
  | x :: items' => if py_eq x v then S (leading v items') else O
  | [] => O
  end.

(** The matches of [ms] follow one another from offset [st]: each starts
    where the one before ended. *)
Fixpoint abutting (st : Z) (ms : list (Match.t Item)) : Prop :=
  match ms with
  | [] => True
  | m :: ms' => Match.start m = st /\ abutting (Match.end_ m) ms'
  end.

(** [fails_after matcher j s h]: from state [s] (and counter [h]) the matcher
    applies successfully [j] times in a row and its next application reports
    no match. *)
Inductive fails_after (matcher : MatcherType Item)
  : nat -> Match.t Item -> nat -> Prop :=
| fails_now s h h' :
    _test_one matcher s h = (Ok None, h') ->
    fails_after matcher O s h
| fails_later j s h s' h' :
    _test_one matcher s h = (Ok (Some s'), h') ->
    fails_after matcher j s' h' ->
    fails_after matcher (S j) s h.

End Specification.

(** ** The exhaustion signal *)

Section Exhaustion.
Context {Item : Type} `{PyEq Item}.

Lemma quiet_ret {A : Type} (a : A) : quiet (ret a).
Proof. intros h; reflexivity. Qed.

Lemma quiet_bind {A B : Type} (c : Py A) (k : A -> Py B) :
  quiet c -> (forall a, quiet (k a)) -> quiet (bind c k).
Proof.
  intros Hc Hk h. unfold bind.
  specialize (Hc h). destruct (c h) as [[a | e] h'].
  - apply Hk.
  - exact Hc.
Qed.

Lemma quiet_try {A : Type} (c handler : Py A) :
  quiet handler -> quiet (try_except_NoMoreItems c handler).
Proof.
  intros Hh h. unfold try_except_NoMoreItems.
  destruct (c h) as [[a | [|]] h']; try reflexivity. apply Hh.
Qed.

Lemma quiet_seq_getitem (items : list Item) (i : Z) : quiet (seq_getitem items i).
Proof.
  intros h. unfold seq_getitem.
  destruct (_ && _); [destruct (nth_error _ _)|]; reflexivity.
Qed.

Lemma quiet_init (items : list Item) (s e : Z) : quiet (Match.__init__ items s e).
Proof. intros h; reflexivity. Qed.

Lemma quiet_advance (m : Match.t Item) (n : Z) : quiet (Match.advance m n).
Proof. apply quiet_init. Qed.

(** [match.has_next and match.next == v] never raises [NoMoreItems]: the
    guard is the negation of the test in [next]. *)
Lemma quiet_guarded_next (m : Match.t Item) (v : Item) :
  quiet (if Match.has_next m
         then (x <- Match.next m ;; ret (py_eq x v))
         else ret false).
Proof.
  unfold Match.has_next, Match.next.
  destruct (Match.end_ m <? len (Match.items m)) eqn:E.
  - assert ((Match.end_ m >=? len (Match.items m)) = false) as ->
      by (rewrite Z.geb_leb; apply Z.leb_gt; apply Z.ltb_lt; exact E).
    apply quiet_bind; [apply quiet_seq_getitem | intros; apply quiet_ret].
  - apply quiet_ret.
Qed.

Lemma quiet_test_one (matcher : MatcherType Item) (m : Match.t Item) :
  quiet (_test_one matcher m).
Proof.
  destruct matcher as [v | f]; cbn [_test_one].
  - apply quiet_bind; [apply quiet_guarded_next|].
    intros [|]; [|apply quiet_ret].
    apply quiet_bind; [apply quiet_advance | intros; apply quiet_ret].
  - apply quiet_bind; [apply quiet_try, quiet_ret|].
    intros r.
    assert (quiet (if is_zero_or_None r then ret None
                   else (m0 <- Match.advance m (int_of r) ;; ret (Some m0)))) as Hq.
    { destruct (is_zero_or_None r); [apply quiet_ret|].
      apply quiet_bind; [apply quiet_advance | intros; apply quiet_ret]. }
    destruct r; exact Hq.
Qed.

Lemma quiet_general_match_loop (matchers : list (MatcherType Item)) :
  forall m, quiet (_general_match_loop matchers m).
Proof.
  induction matchers as [|matcher rest IH]; intros m; cbn [_general_match_loop].
  - apply quiet_ret.
  - apply quiet_bind; [apply quiet_test_one|].
    intros [m'|]; [apply IH | apply quiet_ret].
Qed.

Lemma quiet_general_match (matchers : list (MatcherType Item)) items st :
  quiet (_general_match matchers items st).
Proof.
  apply quiet_bind; [apply quiet_init | intros; apply quiet_general_match_loop].
Qed.

Lemma quiet_fullmatch (matchers : list (MatcherType Item)) items :
  quiet (fullmatch matchers items).
Proof.
  apply quiet_bind; [apply quiet_general_match | intros; apply quiet_ret].
Qed.

Lemma quiet_findall_loop (remaining : nat) (matchers : list (MatcherType Item)) items :
  forall st, quiet (findall_loop remaining matchers items st).
Proof.
  induction remaining as [|k IH]; intros st; cbn [findall_loop].
  - apply quiet_ret.
  - apply quiet_bind; [apply quiet_general_match|].
    intros m. destruct (Match.truth m); [apply quiet_ret | apply IH].
Qed.

Lemma quiet_next (g : Generator Item) : quiet (next g).
Proof. apply quiet_findall_loop. Qed.

Lemma quiet_islice (n : nat) : forall g : Generator Item, quiet (islice n g).
Proof.
  induction n as [|n IH]; intros g; cbn [islice].
  - apply quiet_ret.
  - apply quiet_bind; [apply quiet_next|].
    intros [[m g']|]; [|apply quiet_ret].
    apply quiet_bind; [apply IH | intros; apply quiet_ret].
Qed.

Lemma quiet_search (matchers : list (MatcherType Item)) items :
  quiet (search matchers items).
Proof.
  apply quiet_bind; [apply quiet_next|].
  intros [[m g']|]; apply quiet_ret.
Qed.

(** C10.  A step function that raises [NoMoreItems] makes the step
    evaluator report an ordinary failure ([None]); so does, in particular,
    a predicate that reads [match.next] on a state with no next item.  No
    run of [fullmatch], [search], or of the generator of [findall] (one
    [next] or any number of them) ends with [NoMoreItems]. *)
Theorem exhaustion_is_caught :
  (forall (f : Match.t Item -> Py (MatcherResultType Item)) s h h',
      f s h = (Raise NoMoreItems, h') ->
      _test_one (Callable f) s h = (Ok None, h'))
  /\ (forall (p : Item -> bool) s h,
        Match.has_next s = false ->
        Match.next s h = (Raise NoMoreItems, h)
        /\ _test_one (on_next p) s h = (Ok None, h))
  /\ (forall matchers items h,
        raised_NoMoreItems (fullmatch matchers items h) = false)
  /\ (forall matchers items h,
        raised_NoMoreItems (search matchers items h) = false)
  /\ (forall matchers items h,
        raised_NoMoreItems (next (findall matchers items) h) = false)
  /\ (forall n matchers items h,
        raised_NoMoreItems (islice n (findall matchers items) h) = false).
Proof.
  split; [|split; [|split; [|split; [|split]]]].
  - intros f s h h' Hf. cbn [_test_one].
    unfold bind, try_except_NoMoreItems. rewrite Hf. reflexivity.
  - intros p s h Hn.
    assert (Match.next s h = (Raise NoMoreItems, h)) as Hnext.
    { unfold Match.has_next in Hn. unfold Match.next.
      rewrite Z.geb_leb. apply Z.ltb_ge in Hn.
      replace (len (Match.items s) <=? Match.end_ s) with true
        by (symmetry; apply Z.leb_le; exact Hn).
      reflexivity. }
    split; [exact Hnext|].
    cbn [on_next _test_one]. unfold bind, try_except_NoMoreItems.
    rewrite Hnext. reflexivity.
  - intros; apply quiet_fullmatch.
  - intros; apply quiet_search.
  - intros; apply quiet_next.
  - intros; apply quiet_islice.
Qed.

End Exhaustion.

(** ** Anchors, [any] and equality of states *)

Section Builtins.
Context {Item : Type} `{PyEq Item}.

Lemma test_one_true (f : Match.t Item -> Py (MatcherResultType Item)) s h h' :
  f s h = (Ok (RBool true), h') ->
  _test_one (Callable f) s h
  = (Ok (Some (Match.mk h' (Match.items s) (Match.start s) (Match.end_ s + 1))), S h').
Proof.
  intros Hf. cbn [_test_one]. unfold bind, try_except_NoMoreItems.
  rewrite Hf. reflexivity.
Qed.

Lemma test_one_false (f : Match.t Item -> Py (MatcherResultType Item)) s h h' :
  f s h = (Ok (RBool false), h') ->
  _test_one (Callable f) s h = (Ok None, h').
Proof.
  intros Hf. cbn [_test_one]. unfold bind, try_except_NoMoreItems.
  rewrite Hf. reflexivity.
Qed.

(** C7.  Applied by the step evaluator, [any()] succeeds on every state and
    moves [end] one further, also on a state whose [end] is already
    [len(items)]: the result then has [end = len(items) + 1].  The step
    function never reads [match.next], so nothing signals the exhaustion. *)
Theorem any_matches_past_the_end :
  (forall (s : Match.t Item) h,
      _test_one any s h
      = (Ok (Some (Match.mk h (Match.items s) (Match.start s) (Match.end_ s + 1))), S h))
  /\ (forall o (items : list Item) st h,
        _test_one any (Match.mk o items st (len items)) h
        = (Ok (Some (Match.mk h items st (len items + 1))), S h)).
Proof.
  split; intros; apply test_one_true; reflexivity.
Qed.

(** C6.  Applied by the step evaluator to a state with [end = 0],
    [start()] succeeds with [end = 1]: it consumes one item, not zero.
    Applied to a state with [end = len(items)], [end()] succeeds with
    [end = len(items) + 1].  On the other states both fail. *)
Theorem anchors_consume_one_item :
  (forall o (items : list Item) st h,
      _test_one start (Match.mk o items st 0) h
      = (Ok (Some (Match.mk h items st 1)), S h))
  /\ (forall o (items : list Item) st h,
        _test_one end_ (Match.mk o items st (len items)) h
        = (Ok (Some (Match.mk h items st (len items + 1))), S h))
  /\ (forall (s : Match.t Item) h,
        (Match.end_ s =? 0) = false ->
        _test_one start s h = (Ok None, h))
  /\ (forall (s : Match.t Item) h,
        (Match.end_ s =? len (Match.items s)) = false ->
        _test_one end_ s h = (Ok None, h)).
Proof.
  split; [|split; [|split]].
  - intros. apply test_one_true. reflexivity.
  - intros. apply test_one_true. cbn. rewrite Z.eqb_refl. reflexivity.
  - intros s h E. apply test_one_false. cbn. unfold ret. rewrite E. reflexivity.
  - intros s h E. apply test_one_false. cbn. unfold ret. rewrite E. reflexivity.
Qed.

(** C8.  Two [Match] objects built one after the other from the same
    sequence, start and end are not [==]: the comparison is the identity of
    [object.__eq__], and [Match.__equals__] is never called. *)
Theorem equal_fields_compare_unequal :
  forall (items : list Item) (st en : Z) (h : nat),
  exists a b,
    (a <- Match.__init__ items st en ;;
     b <- Match.__init__ items st en ;;
     ret (a, b)) h = (Ok (a, b), S (S h))
    /\ Match.items a = Match.items b
    /\ Match.start a = Match.start b
    /\ Match.end_ a = Match.end_ b
    /\ Match.__eq__ a b = false.
Proof.
  intros. exists (Match.mk h items st en), (Match.mk (S h) items st en).
  repeat split.
  unfold Match.__eq__, Match.is_. cbn [Match.oid].
  apply Nat.eqb_neq. lia.
Qed.

End Builtins.

(** ** [repeat] below its floor *)

Section Repeat.
Context {Item : Type} `{PyEq Item}.

Lemma repeat_required_stops (matcher : MatcherType Item) j s h :
  fails_after matcher j s h ->
  forall n, (j < n)%nat ->
  exists h', repeat_required n matcher s h = (Ok None, h').
Proof.
  induction 1 as [s h h1 Hfail | j s h s1 h1 Hstep Hrest IH]; intros n Hn.
  - destruct n as [|n]; [lia|].
    exists h1. cbn [repeat_required]. unfold bind. rewrite Hfail. reflexivity.
  - destruct n as [|n]; [lia|].
    destruct (IH n ltac:(lia)) as [h2 Hn'].
    exists h2. cbn [repeat_required]. unfold bind. rewrite Hstep. exact Hn'.
Qed.

(** C9.  If, from a state, the matcher [m] applies successfully only [j]
    times in a row before an application reports no match, and [j < k], then
    the step evaluator applied to [repeat(m, min_n=k)] (with any [max_n])
    reports no match. *)
Theorem repeat_below_floor_fails
  (matcher : MatcherType Item) (k : Z) (max_n : option Z)
  (j : nat) (s : Match.t Item) (h : nat) :
  fails_after matcher j s h ->
  Z.of_nat j < k ->
  exists h', _test_one (repeat matcher k max_n) s h = (Ok None, h').
Proof.
  intros Hfails Hlt.
  destruct (repeat_required_stops matcher j s h Hfails (Z.to_nat k) ltac:(lia))
    as [h' Hreq].
  exists h'. unfold repeat. cbn [_test_one].
  unfold bind, try_except_NoMoreItems. rewrite Hreq. reflexivity.
Qed.

End Repeat.

(** ** [fullmatch] and the anchored [search] *)

Section Queries.
Context {Item : Type} `{PyEq Item}.

Lemma fullmatch_of_general_match (matchers : list (MatcherType Item)) items h m h' :
  _general_match matchers items 0 h = (Ok m, h') ->
  Match.has_next m = false ->
  fullmatch matchers items h = (Ok (Some m), h').
Proof.
  intros Hg Hn. unfold fullmatch, bind. rewrite Hg.
  unfold ret. rewrite Hn. reflexivity.
Qed.

Lemma has_next_at_end (m : Match.t Item) :
  Match.end_ m = len (Match.items m) -> Match.has_next m = false.
Proof. intros E. unfold Match.has_next. rewrite E. apply Z.ltb_irrefl. Qed.

Lemma test_one_literal_exhausted (v : Item) (m : Match.t Item) h :
  Match.has_next m = false -> _test_one (Literal v) m h = (Ok None, h).
Proof. intros E. cbn [_test_one]. rewrite E. reflexivity. Qed.

Lemma general_match_literals_empty (vs : list Item) h :
  _general_match (map Literal vs) [] 0 h
  = (Ok (Match.mk h [] 0 0), S h).
Proof.
  destruct vs as [|v vs]; [reflexivity|].
  unfold _general_match, bind. cbn [Match.__init__ map _general_match_loop].
  unfold bind. rewrite test_one_literal_exhausted; reflexivity.
Qed.

(** The loop over [matchers ++ [x]]: either the loop over [matchers] gives
    the same result (a matcher of the list failed, or [x] failed without
    allocating), or the list ran through to a state to which [x] was
    applied. *)
Lemma general_match_loop_snoc (matchers : list (MatcherType Item)) x :
  forall s h r h',
    _general_match_loop (matchers ++ [x]) s h = (Ok r, h') ->
    exists s1 h1,
      _general_match_loop matchers s h = (Ok s1, h1)
      /\ ((r = s1 /\ h' = h1)
          \/ _test_one x s1 h1 = (Ok (Some r), h')
          \/ (_test_one x s1 h1 = (Ok None, h') /\ r = s1)).
Proof.
  induction matchers as [|a rest IH]; intros s h r h' Hrun.
  - exists s, h. split; [reflexivity|].
    cbn [app _general_match_loop] in Hrun. unfold bind in Hrun.
    destruct (_test_one x s h) as [[[m|] | e] h1] eqn:E; unfold ret in Hrun.
    + right; left. congruence.
    + right; right. split; congruence.
    + discriminate.
  - cbn [app _general_match_loop] in Hrun |- *. unfold bind in Hrun |- *.
    destruct (_test_one a s h) as [[[m|] | e] h1] eqn:E.
    + apply IH. exact Hrun.
    + exists r, h'. split; [exact Hrun|]. left. split; reflexivity.
    + discriminate.
Qed.

(** [next] is one run of the [while] loop up to its [yield]: the count of
    offsets left stands for the test [start < len(items)]. *)
Lemma next_unfold (matchers : list (MatcherType Item)) items st h :
  next (mkGenerator matchers items st) h
  = if st <? len items
    then (match_ <- _general_match matchers items st ;;
          if Match.truth match_
          then ret (Some (match_, mkGenerator matchers items (Match.end_ match_)))
          else next (mkGenerator matchers items (st + 1))) h
    else (Ok None, h).
Proof.
  unfold next. cbn [g_matchers g_items g_start].
  destruct (st <? len items) eqn:E.
  - apply Z.ltb_lt in E.
    replace (Z.to_nat (len items - st))
      with (S (Z.to_nat (len items - (st + 1)))) by lia.
    reflexivity.
  - apply Z.ltb_ge in E.
    replace (Z.to_nat (len items - st)) with O by lia.
    reflexivity.
Qed.

Lemma search_first (matchers : list (MatcherType Item)) items h m h' :
  search matchers items h = (Ok (Some m), h') ->
  _general_match matchers items 0 h = (Ok m, h').
Proof.
  unfold search, next, findall. cbn [g_items g_start g_matchers].
  destruct (Z.to_nat (len items - 0)) as [|k]; cbn [findall_loop].
  - cbn. discriminate.
  - unfold bind.
    destruct (_general_match matchers items 0 h) as [[m0 | e] h0]; cbn; unfold ret.
    + congruence.
    + discriminate.
Qed.

Lemma next_exhausted (matchers : list (MatcherType Item)) items st h :
  len items <= st -> next (mkGenerator matchers items st) h = (Ok None, h).
Proof.
  intros Hst. rewrite next_unfold.
  replace (st <? len items) with false by (symmetry; apply Z.ltb_ge; exact Hst).
  reflexivity.
Qed.

Lemma islice_exhausted (matchers : list (MatcherType Item)) items st h n :
  len items <= st -> islice n (mkGenerator matchers items st) h = (Ok [], h).
Proof.
  intros Hst. destruct n as [|n]; [reflexivity|].
  cbn [islice]. unfold bind. rewrite next_exhausted by exact Hst. reflexivity.
Qed.

Lemma islice_finite_from (matchers : list (MatcherType Item)) items :
  progresses matchers items ->
  forall (k : nat) st h,
    0 <= st ->
    (Z.to_nat (len items - st) <= k)%nat ->
    exists ms h',
      islice k (mkGenerator matchers items st) h = (Ok ms, h')
      /\ (length ms <= Z.to_nat (len items - st))%nat
      /\ forall n, (k <= n)%nat ->
           islice n (mkGenerator matchers items st) h = (Ok ms, h').
Proof.
  intros Hprog. induction k as [|k IH]; intros st h Hst Hk.
  - exists [], h. split; [reflexivity|]. split; [cbn; lia|].
    intros n _. apply islice_exhausted. lia.
  - destruct (Z.lt_ge_cases st (len items)) as [Hlt | Hge].
    + destruct (Hprog st h ltac:(lia)) as (m & h1 & Hrun & Hadv).
      assert (next (mkGenerator matchers items st) h
              = (Ok (Some (m, mkGenerator matchers items (Match.end_ m))), h1))
        as Hnext.
      { rewrite next_unfold.
        replace (st <? len items) with true by (symmetry; apply Z.ltb_lt; exact Hlt).
        unfold bind. rewrite Hrun. reflexivity. }
      destruct (IH (Match.end_ m) h1 ltac:(lia) ltac:(lia))
        as (ms & h2 & Hk' & Hlen & Hmore).
      exists (m :: ms), h2. split; [|split].
      * cbn [islice]. unfold bind at 1. rewrite Hnext.
        unfold bind. rewrite Hk'. reflexivity.
      * cbn [length]. lia.
      * intros n Hn. destruct n as [|n]; [lia|].
        cbn [islice]. unfold bind at 1. rewrite Hnext.
        unfold bind. rewrite (Hmore n) by lia. reflexivity.
    + exists [], h. split; [apply islice_exhausted; lia|].
      split; [cbn; lia|].
      intros n _. apply islice_exhausted. lia.
Qed.

(** The generator of [findall(M, S)] stops once its offset has reached
    [len(S)].  When every attempt of the sequential matcher at
    an offset inside the sequence returns a state that ends after that
    offset, [findall(M, S)] is finite: it yields some list of at most
    [len(S)] matches and then stops, however many items are asked for. *)
Theorem findall_finite_when_progressing :
  (forall (matchers : list (MatcherType Item)) (items : list Item) st h,
      len items <= st ->
      next (mkGenerator matchers items st) h = (Ok None, h))
  /\ (forall (matchers : list (MatcherType Item)) (items : list Item) (h : nat),
        progresses matchers items ->
        exists ms h',
          islice (length items) (findall matchers items) h = (Ok ms, h')
          /\ (length ms <= length items)%nat
          /\ forall n, (length items <= n)%nat ->
               islice n (findall matchers items) h = (Ok ms, h')).
Proof.
  split.
  - intros. apply next_exhausted. assumption.
  - intros matchers items h Hprog.
    destruct (islice_finite_from matchers items Hprog (length items) 0 h)
      as (ms & h' & E & Hlen & Hmore); [lia | unfold len; lia |].
    exists ms, h'. split; [exact E|].
    split; [unfold len in Hlen; lia | exact Hmore].
Qed.

(** If [search(M + [end()], S)] returns a match over [S]
    whose start is 0 and whose end is [len(S)], then [fullmatch(M, S)]
    succeeds, with that very match. *)
Theorem anchored_search_gives_fullmatch
  (matchers : list (MatcherType Item)) (items : list Item)
  (h : nat) (m : Match.t Item) (h' : nat) :
  search (matchers ++ [end_]) items h = (Ok (Some m), h') ->
  Match.items m = items ->
  Match.start m = 0 ->
  Match.end_ m = len items ->
  fullmatch matchers items h = (Ok (Some m), h').
Proof.
  intros Hsearch Hitems _ Hend.
  apply search_first in Hsearch.
  assert (Match.end_ m = len (Match.items m)) as Hfull by congruence.
  unfold _general_match, bind in Hsearch. cbn [Match.__init__] in Hsearch.
  apply general_match_loop_snoc in Hsearch. unfold end_ in Hsearch.
  destruct Hsearch as (s1 & h1 & Hrun & [[-> ->] | [Hstep | [Hstep ->]]]).
  - apply fullmatch_of_general_match; [|apply has_next_at_end; exact Hfull].
    unfold _general_match, bind. cbn [Match.__init__]. exact Hrun.
  - exfalso.
    destruct (Match.end_ s1 =? len (Match.items s1)) eqn:E.
    + rewrite (test_one_true _ s1 h1 h1) in Hstep
        by (cbn; unfold ret; rewrite E; reflexivity).
      injection Hstep as <- _. cbn in Hfull.
      apply Z.eqb_eq in E. lia.
    + rewrite (test_one_false _ s1 h1 h1) in Hstep
        by (cbn; unfold ret; rewrite E; reflexivity).
      discriminate.
  - exfalso. apply Z.eqb_eq in Hfull.
    rewrite (test_one_true _ s1 h1 h1) in Hstep
      by (cbn; unfold ret; rewrite Hfull; reflexivity).
    discriminate.
Qed.

End Queries.

(** ** The bounds of a state *)

Section Bounds.
Context {Item : Type} `{PyEq Item}.

Lemma extends_refl (s : Match.t Item) : in_bounds s -> extends s s.
Proof. unfold in_bounds, extends. intuition lia. Qed.

Lemma extends_trans (a b c : Match.t Item) :
  extends a b -> extends b c -> extends a c.
Proof.
  unfold extends. intros (Hi & Hs & Hlo & Hhi) (Hi' & Hs' & Hlo' & Hhi').
  rewrite Hi in Hhi'. repeat split; [congruence | congruence | lia | lia].
Qed.

Lemma extends_in_bounds (s s' : Match.t Item) :
  in_bounds s -> extends s s' -> in_bounds s'.
Proof.
  unfold in_bounds, extends. intros (H0 & H1 & H2) (Hi & Hs & Hlo & Hhi).
  rewrite Hi, Hs. repeat split; lia.
Qed.

Lemma init_in_bounds (items : list Item) st h :
  0 <= st <= len items ->
  exists m, Match.__init__ items st st h = (Ok m, S h)
            /\ Match.items m = items /\ Match.start m = st /\ Match.end_ m = st
            /\ in_bounds m.
Proof.
  intros Hst. eexists. split; [reflexivity|].
  unfold in_bounds; cbn. repeat split; lia.
Qed.

Lemma advance_extends (s : Match.t Item) n h :
  0 <= n <= len (Match.items s) - Match.end_ s ->
  exists s', Match.advance s n h = (Ok s', S h) /\ extends s s'.
Proof.
  intros Hn. eexists. split; [reflexivity|].
  unfold extends; cbn. repeat split; lia.
Qed.

Lemma seq_getitem_in_range (items : list Item) i h :
  0 <= i < len items -> exists x, seq_getitem items i h = (Ok x, h).
Proof.
  intros Hi. unfold seq_getitem.
  replace (i <? 0) with false by (symmetry; apply Z.ltb_ge; lia).
  replace (0 <=? i) with true by (symmetry; apply Z.leb_le; lia).
  replace (i <? len items) with true by (symmetry; apply Z.ltb_lt; lia).
  cbn [andb].
  destruct (nth_error items (Z.to_nat i)) as [x|] eqn:E.
  - exists x. reflexivity.
  - apply nth_error_None in E. unfold len in Hi. lia.
Qed.

(** On a state within bounds [next] is the item at [end] or the exhaustion
    signal, never an [IndexError]. *)
Lemma next_in_bounds (s : Match.t Item) h :
  in_bounds s ->
  (Match.has_next s = true /\ exists x, Match.next s h = (Ok x, h))
  \/ (Match.has_next s = false /\ Match.next s h = (Raise NoMoreItems, h)).
Proof.
  intros (H0 & H1 & H2). unfold Match.has_next, Match.next.
  rewrite Z.geb_leb.
  destruct (Match.end_ s <? len (Match.items s)) eqn:E.
  - left. split; [reflexivity|].
    apply Z.ltb_lt in E.
    replace (len (Match.items s) <=? Match.end_ s) with false
      by (symmetry; apply Z.leb_gt; lia).
    apply seq_getitem_in_range. lia.
  - right. split; [reflexivity|].
    apply Z.ltb_ge in E.
    replace (len (Match.items s) <=? Match.end_ s) with true
      by (symmetry; apply Z.leb_le; lia).
    reflexivity.
Qed.

Lemma test_one_literal_extends (v : Item) (s : Match.t Item) h :
  in_bounds s ->
  exists r h', _test_one (Literal v) s h = (Ok r, h')
               /\ forall s', r = Some s' -> extends s s'.
Proof.
  intros Hs. cbn [_test_one].
  destruct (next_in_bounds s h Hs) as [[Hn [x Hx]] | [Hn _]]; rewrite Hn.
  - unfold bind at 1. unfold bind at 1. rewrite Hx. unfold ret at 1.
    destruct (py_eq x v).
    + assert (Match.end_ s < len (Match.items s)) as Hlt
        by (apply Z.ltb_lt; exact Hn).
      destruct (advance_extends s 1 h ltac:(lia)) as (s1 & Hadv & Hext).
      exists (Some s1), (S h). unfold bind. rewrite Hadv.
      split; [reflexivity|]. intros s' [= <-]. exact Hext.
    + exists None, h. split; [reflexivity | discriminate].
  - exists None, h. split; [reflexivity | discriminate].
Qed.

Lemma test_one_callable_extends
  (f : Match.t Item -> Py (MatcherResultType Item)) (s : Match.t Item) h :
  respectful_step f -> in_bounds s ->
  exists r h', _test_one (Callable f) s h = (Ok r, h')
               /\ forall s', r = Some s' -> extends s s'.
Proof.
  intros Hf Hs. specialize (Hf s h Hs). cbn [_test_one].
  unfold bind at 1, try_except_NoMoreItems.
  destruct (f s h) as [[r | [|]] h1]; cbn [fst] in Hf.
  - assert (forall r', r' = r ->
              (is_zero_or_None r' = true
               \/ 0 <= int_of r' <= len (Match.items s) - Match.end_ s) ->
              exists r0 h',
                (if is_zero_or_None r' then ret None
                 else (m <- Match.advance s (int_of r') ;; ret (Some m))) h1
                = (Ok r0, h')
                /\ forall s', r0 = Some s' -> extends s s') as Hcount.
    { intros r' _ Hr'. destruct (is_zero_or_None r') eqn:Ez.
      - exists None, h1. split; [reflexivity | discriminate].
      - destruct Hr' as [Hr' | Hr']; [discriminate|].
        destruct (advance_extends s (int_of r') h1 Hr') as (s1 & Hadv & Hext).
        exists (Some s1), (S h1). unfold bind. rewrite Hadv.
        split; [reflexivity|]. intros s' [= <-]. exact Hext. }
    destruct r as [b | n | | m].
    + apply (Hcount (RBool b) eq_refl Hf).
    + apply (Hcount (RInt n) eq_refl Hf).
    + apply (Hcount RNone eq_refl Hf).
    + exists (Some m), h1. split; [reflexivity|]. intros s' [= <-]. exact Hf.
  - exists None, h1. split; [reflexivity | discriminate].
  - contradiction.
Qed.

Lemma test_one_extends (matcher : MatcherType Item) (s : Match.t Item) h :
  respectful matcher -> in_bounds s ->
  exists r h', _test_one matcher s h = (Ok r, h')
               /\ forall s', r = Some s' -> extends s s'.
Proof.
  destruct matcher as [v | f]; intros Hm Hs.
  - apply test_one_literal_extends; exact Hs.
  - apply test_one_callable_extends; assumption.
Qed.

Lemma respectful_optional (matcher : MatcherType Item) :
  respectful matcher -> respectful (optional matcher).
Proof.
  intros Hm s h Hs. cbn [optional respectful]. unfold bind.
  destruct (test_one_extends matcher s h Hm Hs) as (r & h' & -> & Hext).
  destruct r as [m|]; cbn.
  - apply Hext. reflexivity.
  - apply extends_refl. exact Hs.
Qed.

Lemma respectful_on_next (p : Item -> bool) : respectful (on_next p).
Proof.
  intros s h Hs. cbn [on_next]. unfold bind.
  destruct (next_in_bounds s h Hs) as [[Hn [x ->]] | [Hn ->]]; cbn; [|exact I].
  apply Z.ltb_lt in Hn. destruct (p x); cbn; [right; lia | left; reflexivity].
Qed.

Lemma repeat_required_extends (matcher : MatcherType Item) (n : nat) :
  respectful matcher ->
  forall s h, in_bounds s ->
  exists r h', repeat_required n matcher s h = (Ok r, h')
               /\ forall s', r = Some s' -> extends s s'.
Proof.
  intros Hm. induction n as [|n IH]; intros s h Hs; cbn [repeat_required].
  - exists (Some s), h. split; [reflexivity|].
    intros s' [= <-]. apply extends_refl. exact Hs.
  - unfold bind.
    destruct (test_one_extends matcher s h Hm Hs) as (r & h1 & -> & Hext).
    destruct r as [m|].
    + specialize (Hext m eq_refl).
      destruct (IH m h1 (extends_in_bounds _ _ Hs Hext)) as (r & h2 & -> & Hext').
      exists r, h2. split; [reflexivity|].
      intros s' E. apply (extends_trans _ m); [exact Hext | apply Hext'; exact E].
    + exists None, h1. split; [reflexivity | discriminate].
Qed.

Lemma repeat_greedy_extends (matcher : MatcherType Item) (n : nat) :
  respectful matcher ->
  forall s h, in_bounds s ->
  exists s' h', repeat_greedy n matcher s h = (Ok s', h') /\ extends s s'.
Proof.
  intros Hm. induction n as [|n IH]; intros s h Hs; cbn [repeat_greedy].
  - exists s, h. split; [reflexivity | apply extends_refl; exact Hs].
  - unfold bind.
    destruct (test_one_extends matcher s h Hm Hs) as (r & h1 & -> & Hext).
    destruct r as [m|].
    + specialize (Hext m eq_refl).
      destruct (Match.__eq__ m s).
      * exists s, h1. split; [reflexivity | apply extends_refl; exact Hs].
      * destruct (IH m h1 (extends_in_bounds _ _ Hs Hext)) as (s' & h2 & -> & Hext').
        exists s', h2. split; [reflexivity|].
        apply (extends_trans _ m); assumption.
    + exists s, h1. split; [reflexivity | apply extends_refl; exact Hs].
Qed.

Lemma respectful_repeat (matcher : MatcherType Item) (min_n : Z) (max_n : option Z) :
  respectful matcher -> respectful (repeat matcher min_n max_n).
Proof.
  intros Hm s h Hs. cbn [repeat respectful]. unfold bind at 1.
  destruct (repeat_required_extends matcher (Z.to_nat min_n) Hm s h Hs)
    as (r & h1 & -> & Hext).
  destruct r as [m|]; [|cbn; left; reflexivity].
  specialize (Hext m eq_refl).
  unfold bind.
  match goal with
  | |- context [repeat_greedy ?k matcher m h1] =>
      destruct (repeat_greedy_extends matcher k Hm m h1
                  (extends_in_bounds _ _ Hs Hext)) as (s' & h2 & -> & Hext')
  end.
  cbn. apply (extends_trans _ m); assumption.
Qed.

Lemma general_match_loop_extends (matchers : list (MatcherType Item)) :
  Forall respectful matchers ->
  forall s h, in_bounds s ->
  exists s' h', _general_match_loop matchers s h = (Ok s', h') /\ extends s s'.
Proof.
  induction 1 as [|matcher rest Hm _ IH]; intros s h Hs;
    cbn [_general_match_loop].
  - exists s, h. split; [reflexivity | apply extends_refl; exact Hs].
  - unfold bind.
    destruct (test_one_extends matcher s h Hm Hs) as (r & h1 & -> & Hext).
    destruct r as [m|].
    + specialize (Hext m eq_refl).
      destruct (IH m h1 (extends_in_bounds _ _ Hs Hext)) as (s' & h2 & -> & Hext').
      exists s', h2. split; [reflexivity|].
      apply (extends_trans _ m); assumption.
    + exists s, h1. split; [reflexivity | apply extends_refl; exact Hs].
Qed.

Lemma general_match_in_bounds (matchers : list (MatcherType Item)) items st h :
  Forall respectful matchers ->
  0 <= st <= len items ->
  exists m h', _general_match matchers items st h = (Ok m, h')
               /\ Match.items m = items /\ Match.start m = st
               /\ st <= Match.end_ m /\ in_bounds m.
Proof.
  intros HM Hst. unfold _general_match, bind.
  destruct (init_in_bounds items st h Hst) as (m0 & -> & Hi & Hs & He & Hb).
  destruct (general_match_loop_extends matchers HM m0 (S h) Hb)
    as (m & h' & -> & Hext).
  exists m, h'. split; [reflexivity|].
  pose proof (extends_in_bounds _ _ Hb Hext) as Hb'.
  destruct Hext as (Hi' & Hs' & Hlo & _).
  split; [congruence|]. split; [congruence|]. split; [lia | exact Hb'].
Qed.

Lemma fullmatch_in_bounds (matchers : list (MatcherType Item)) items h :
  Forall respectful matchers ->
  exists r h', fullmatch matchers items h = (Ok r, h')
               /\ forall m, r = Some m ->
                    Match.items m = items /\ Match.start m = 0 /\ in_bounds m.
Proof.
  intros HM. unfold fullmatch, bind.
  destruct (general_match_in_bounds matchers items 0 h HM)
    as (m & h' & -> & Hi & Hs & _ & Hb).
  { unfold len. lia. }
  eexists _, h'. split; [reflexivity|].
  intros m'. destruct (_ && _); [|discriminate].
  intros [= <-]. auto.
Qed.

(** One [next] on a generator whose offset is not negative. *)
Lemma next_in_bounds_gen (g : Generator Item) h :
  Forall respectful (g_matchers g) ->
  0 <= g_start g ->
  exists r h', next g h = (Ok r, h')
    /\ forall m g', r = Some (m, g') ->
         Match.items m = g_items g /\ Match.start m = g_start g /\ in_bounds m
         /\ g_matchers g' = g_matchers g /\ g_items g' = g_items g
         /\ 0 <= g_start g'.
Proof.
  intros HM Hst. unfold next.
  destruct (Z.to_nat (len (g_items g) - g_start g)) as [|k] eqn:E;
    cbn [findall_loop].
  - exists None, h. split; [reflexivity | discriminate].
  - unfold bind.
    destruct (general_match_in_bounds (g_matchers g) (g_items g) (g_start g) h HM)
      as (m & h' & -> & Hi & Hs & Hlo & Hb); [lia|].
    cbn [Match.truth].
    eexists _, h'. split; [reflexivity|].
    intros m' g' [= <- <-]. cbn. repeat split; try assumption; try apply Hb. lia.
Qed.

Lemma islice_in_bounds (n : nat) :
  forall (g : Generator Item) h,
    Forall respectful (g_matchers g) ->
    0 <= g_start g ->
    exists ms h', islice n g h = (Ok ms, h')
      /\ Forall (fun m => Match.items m = g_items g /\ in_bounds m) ms.
Proof.
  induction n as [|n IH]; intros g h HM Hst; cbn [islice].
  - exists [], h. split; [reflexivity | constructor].
  - unfold bind at 1.
    destruct (next_in_bounds_gen g h HM Hst) as (r & h1 & -> & Hr).
    destruct r as [[m g']|].
    + destruct (Hr m g' eq_refl) as (Hi & _ & Hb & HM' & Hi' & Hst').
      rewrite <- HM' in HM.
      destruct (IH g' h1 HM Hst') as (ms & h2 & E & Hall).
      unfold bind. rewrite E.
      exists (m :: ms), h2. split; [reflexivity|].
      constructor; [split; assumption|].
      rewrite <- Hi'. exact Hall.
    + exists [], h1. split; [reflexivity | constructor].
Qed.

Lemma search_in_bounds (matchers : list (MatcherType Item)) items h :
  Forall respectful matchers ->
  exists r h', search matchers items h = (Ok r, h')
               /\ forall m, r = Some m -> Match.items m = items /\ in_bounds m.
Proof.
  intros HM. unfold search, bind.
  destruct (next_in_bounds_gen (findall matchers items) h HM ltac:(cbn; lia))
    as (r & h1 & -> & Hr).
  destruct r as [[m g']|].
  - exists (Some m), h1. split; [reflexivity|].
    intros m' [= <-]. destruct (Hr m g' eq_refl) as (Hi & _ & Hb & _).
    split; assumption.
  - exists None, h1. split; [reflexivity | discriminate].
Qed.

Lemma respectful_literals (vs : list Item) : Forall respectful (map Literal vs).
Proof. induction vs; constructor; [exact I | assumption]. Qed.

(** C5, amended.  States built at an offset between 0 and the length are
    within bounds.  From a state within bounds, a literal step, the step
    evaluator applied to a respectful matcher (a literal, or a step function
    whose counts lie between 0 and the number of items left and whose
    returned states extend its argument), [optional] and [repeat] of such
    matchers, the sequential matcher and the three query operations over
    lists of such matchers produce only states within bounds; a state
    produced from another has the same start and the same sequence. *)
Theorem respectful_matchers_keep_bounds :
  (forall (items : list Item) st h,
      0 <= st <= len items ->
      exists m, Match.__init__ items st st h = (Ok m, S h)
                /\ Match.items m = items /\ Match.start m = st
                /\ in_bounds m)
  /\ (forall (s : Match.t Item) n h,
        in_bounds s ->
        0 <= n <= len (Match.items s) - Match.end_ s ->
        exists s', Match.advance s n h = (Ok s', S h)
                   /\ extends s s' /\ in_bounds s')
  /\ (forall (matcher : MatcherType Item) s h,
        respectful matcher -> in_bounds s ->
        exists r h', _test_one matcher s h = (Ok r, h')
                     /\ forall s', r = Some s' -> extends s s' /\ in_bounds s')
  /\ (forall (matcher : MatcherType Item),
        respectful matcher ->
        respectful (optional matcher)
        /\ forall min_n max_n, respectful (repeat matcher min_n max_n))
  /\ (forall (matchers : list (MatcherType Item)) items st h,
        Forall respectful matchers ->
        0 <= st <= len items ->
        exists m h', _general_match matchers items st h = (Ok m, h')
                     /\ Match.items m = items /\ Match.start m = st
                     /\ in_bounds m)
  /\ (forall (matchers : list (MatcherType Item)) items h,
        Forall respectful matchers ->
        (exists r h', fullmatch matchers items h = (Ok r, h')
                      /\ forall m, r = Some m ->
                           Match.items m = items /\ in_bounds m)
        /\ (exists r h', search matchers items h = (Ok r, h')
                         /\ forall m, r = Some m ->
                              Match.items m = items /\ in_bounds m)
        /\ forall n, exists ms h',
             islice n (findall matchers items) h = (Ok ms, h')
             /\ Forall (fun m => Match.items m = items /\ in_bounds m) ms).
Proof.
  split; [|split; [|split; [|split; [|split]]]].
  - intros items st h Hst.
    destruct (init_in_bounds items st h Hst) as (m & E & Hi & Hs & _ & Hb).
    exists m. auto.
  - intros s n h Hs Hn.
    destruct (advance_extends s n h Hn) as (s' & E & Hext).
    exists s'. split; [exact E|]. split; [exact Hext|].
    apply (extends_in_bounds s); assumption.
  - intros matcher s h Hm Hs.
    destruct (test_one_extends matcher s h Hm Hs) as (r & h' & E & Hext).
    exists r, h'. split; [exact E|]. intros s' Hr.
    split; [apply Hext; exact Hr|].
    apply (extends_in_bounds s); [exact Hs | apply Hext; exact Hr].
  - intros matcher Hm. split; [apply respectful_optional; exact Hm|].
    intros. apply respectful_repeat; exact Hm.
  - intros matchers items st h HM Hst.
    destruct (general_match_in_bounds matchers items st h HM Hst)
      as (m & h' & E & Hi & Hs & _ & Hb).
    exists m, h'. auto.
  - intros matchers items h HM. split; [|split].
    + destruct (fullmatch_in_bounds matchers items h HM) as (r & h' & E & Hr).
      exists r, h'. split; [exact E|]. intros m Hm.
      destruct (Hr m Hm) as (? & _ & ?). auto.
    + apply search_in_bounds; exact HM.
    + intros n.
      apply (islice_in_bounds n (findall matchers items) h); [exact HM|].
      cbn. lia.
Qed.

(** The sequential matcher over literals keeps the sequence it was given. *)
Lemma general_match_literals_items (vs : list Item) items h m h' :
  _general_match (map Literal vs) items 0 h = (Ok m, h') ->
  Match.items m = items.
Proof.
  intros E.
  destruct (general_match_in_bounds (map Literal vs) items 0 h
              (respectful_literals vs)) as (m1 & h1 & E1 & Hi & _).
  { unfold len. lia. }
  rewrite E in E1. injection E1 as -> _. exact Hi.
Qed.

End Bounds.

(** ** Scenarios over integer items *)

(** On the empty sequence [fullmatch([], [])] succeeds with the zero-width
    match, while [search([] + [end()], [])] finds nothing, because
    [findall] tries no offset of an empty sequence. *)
Lemma fullmatch_without_anchored_search :
  fullmatch (@nil (MatcherType Z)) [] 0%nat
  = (Ok (Some (Match.mk 0 [] 0 0)), 1%nat)
  /\ search (@nil (MatcherType Z) ++ [end_]) [] 0%nat = (Ok None, 0%nat).
Proof. split; reflexivity. Qed.

(** [search([1, 2, 3, end()], [1, 2])] stops at the third literal with
    start 0 and end 2, and [fullmatch([1, 2, 3], [1, 2])] returns the same
    match. *)
Lemma anchored_search_gives_fullmatch_witness :
  search ([Literal 1; Literal 2; Literal 3] ++ [end_]) [1; 2] 0%nat
  = (Ok (Some (Match.mk 2 [1; 2] 0 2)), 3%nat)
  /\ fullmatch [Literal 1; Literal 2; Literal 3] [1; 2] 0%nat
     = (Ok (Some (Match.mk 2 [1; 2] 0 2)), 3%nat).
Proof.
  split; [reflexivity|].
  apply anchored_search_gives_fullmatch; reflexivity.
Defined.

(** One [next] on [findall([2, 3], [1, 2, 3])] leaves the generator as it
    was. *)
Lemma next_after_failed_attempt (h : nat) :
  next (findall [Literal 2; Literal 3] [1; 2; 3]) h
  = (Ok (Some (Match.mk h [1; 2; 3] 0 0,
               findall [Literal 2; Literal 3] [1; 2; 3])), S h).
Proof. reflexivity. Qed.

(** C2.  On [findall([2, 3], [1, 2, 3])] the attempt at offset 0 fails at
    the first matcher, yet its zero-width state is yielded and the offset
    stays 0 instead of advancing by 1: for every [n] the generator delivers
    [n] matches, all with start 0 and end 0.  It never reaches offset 1 and
    never finishes. *)
Theorem findall_repeats_failed_attempt :
  forall (n h : nat),
  exists ms,
    islice n (findall [Literal 2; Literal 3] [1; 2; 3]) h = (Ok ms, (n + h)%nat)
    /\ length ms = n
    /\ Forall (fun m => Match.start m = 0 /\ Match.end_ m = 0) ms.
Proof.
  induction n as [|n IH]; intros h.
  - exists []. repeat split. constructor.
  - destruct (IH (S h)) as (ms & E & Hlen & Hall).
    exists (Match.mk h [1; 2; 3] 0 0 :: ms).
    cbn [islice]. unfold bind at 1. rewrite next_after_failed_attempt.
    unfold bind. rewrite E.
    replace (n + S h)%nat with (S n + h)%nat by lia.
    split; [reflexivity|]. split; [cbn; lia|].
    constructor; [split; reflexivity | exact Hall].
Qed.

(** [findall([any()], [7, 8, 9])]: three one-item matches at offsets 0, 1
    and 2, and then the end of the generator. *)
Example findall_any_three :
  islice 5 (findall [any] [7; 8; 9]) 0%nat
  = (Ok [Match.mk 1 [7; 8; 9] 0 1; Match.mk 3 [7; 8; 9] 1 2;
         Match.mk 5 [7; 8; 9] 2 3], 6%nat).
Proof. reflexivity. Qed.

(** [fullmatch([1, any(), 3], [1, 2, 3])] succeeds with end 3. *)
Example fullmatch_with_any :
  fst (fullmatch [Literal 1; any; Literal 3] [1; 2; 3] 0%nat)
  = Ok (Some (Match.mk 3 [1; 2; 3] 0 3)).
Proof. reflexivity. Qed.

(** C1.  [fullmatch([1, 2, 3], [1, 2, 3])] succeeds with end 3, and
    [search([1, 2, 3] + [end()], [1, 2, 3])] returns a match with start 0
    whose end is 4, not [len(S) = 3]: after the three literals the anchor
    succeeds and the step evaluator moves the end one further.  The same
    happens with [fullmatch([1], [1])] and [search([1, end()], [1])]. *)
Theorem anchored_search_misses_full_match :
  forall h : nat,
    fullmatch [Literal 1; Literal 2; Literal 3] [1; 2; 3] h
    = (Ok (Some (Match.mk (S (S (S h))) [1; 2; 3] 0 3)), S (S (S (S h))))
    /\ search ([Literal 1; Literal 2; Literal 3] ++ [end_]) [1; 2; 3] h
       = (Ok (Some (Match.mk (S (S (S (S h)))) [1; 2; 3] 0 4)),
          S (S (S (S (S h)))))
    /\ fullmatch [Literal 1] [1] h
       = (Ok (Some (Match.mk (S h) [1] 0 1)), S (S h))
    /\ search ([Literal 1] ++ [end_]) [1] h
       = (Ok (Some (Match.mk (S (S h)) [1] 0 2)), S (S (S h))).
Proof. intros h. repeat split. Qed.

(** [search([1, end()], [1])]: the anchor moves the end to 2, past the
    sequence, although [fullmatch([1], [1])] succeeds with end 1. *)
Example anchored_search_overruns :
  fst (search [Literal 1; end_] [1] 0%nat) = Ok (Some (Match.mk 2 [1] 0 2))
  /\ fst (fullmatch [Literal 1] [1] 0%nat) = Ok (Some (Match.mk 1 [1] 0 1)).
Proof. split; reflexivity. Qed.

(** The method [__equals__] would call these two objects equal; [==] does
    not. *)
Example equals_method_versus_eq :
  Match.__equals__ (Match.mk 0 [1; 2] 0 1) (Match.mk 1 [1; 2] 0 1) = true
  /\ Match.__eq__ (Match.mk 0 [1; 2] 0 1) (Match.mk 1 [1; 2] 0 1) = false.
Proof. split; reflexivity. Qed.

(** On the empty pattern [findall([], [7])] yields the zero-width match at
    offset 0 and is then in the state it started from, so it yields [n]
    matches for every [n]. *)
Lemma empty_pattern_never_finishes :
  next (findall (@nil (MatcherType Z)) [7]) 0%nat
  = (Ok (Some (Match.mk 0 [7] 0 0, findall [] [7])), 1%nat)
  /\ (forall n h : nat,
        exists ms,
          islice n (findall (@nil (MatcherType Z)) [7]) h = (Ok ms, (n + h)%nat)
          /\ length ms = n).
Proof.
  split; [reflexivity|].
  induction n as [|n IH]; intros h.
  - exists []. split; reflexivity.
  - destruct (IH (S h)) as (ms & E & Hlen).
    exists (Match.mk h [7] 0 0 :: ms).
    cbn [islice]. unfold bind at 1.
    change (next (findall (@nil (MatcherType Z)) [7]) h)
      with (Ok (Some (Match.mk h [7] 0 0, findall (@nil (MatcherType Z)) [7])), S h).
    unfold bind. rewrite E.
    replace (n + S h)%nat with (S n + h)%nat by lia.
    split; [reflexivity | cbn; lia].
Qed.

(** [any()] consumes one item at every offset inside the sequence. *)
Lemma progresses_any_three : progresses [any] [7; 8; 9].
Proof.
  intros st h Hst.
  exists (Match.mk (S h) [7; 8; 9] st (st + 1)), (S (S h)).
  split; [reflexivity | cbn; lia].
Qed.

(** [findall([any()], [7, 8, 9])] is finished after three matches. *)
Lemma findall_finite_when_progressing_witness :
  exists ms h',
    islice 3 (findall [any] [7; 8; 9]) 0%nat = (Ok ms, h')
    /\ (length ms <= 3)%nat
    /\ forall n, (3 <= n)%nat ->
         islice n (findall [any] [7; 8; 9]) 0%nat = (Ok ms, h').
Proof.
  apply (proj2 findall_finite_when_progressing [any] [7; 8; 9] 0%nat).
  exact progresses_any_three.
Defined.

(** C3.  [search([2, 3], [1, 2, 3])] returns the state of the failed
    attempt at offset 0: start 0 and end 0, not start 1 and end 3. *)
Theorem search_returns_failed_attempt :
  forall h : nat,
    search [Literal 2; Literal 3] [1; 2; 3] h
    = (Ok (Some (Match.mk h [1; 2; 3] 0 0)), S h).
Proof. intros h. reflexivity. Qed.

(** C4.  For a list of literal matchers, when the sequential matcher from
    offset 0 ends in a state whose end is [len(S)], [fullmatch] returns
    that state, whether or not every matcher was satisfied:
    [fullmatch([1, 2, 3], [1, 2])] is the match with end 2, and on the
    empty sequence [fullmatch] returns the zero-width match. *)
Theorem fullmatch_accepts_any_stop_at_end :
  (forall (Item : Type) (E : PyEq Item) (vs items : list Item) h m h',
      _general_match (map Literal vs) items 0 h = (Ok m, h') ->
      Match.end_ m = len items ->
      fullmatch (map Literal vs) items h = (Ok (Some m), h'))
  /\ (forall h : nat,
        fullmatch [Literal 1; Literal 2; Literal 3] [1; 2] h
        = (Ok (Some (Match.mk (S (S h)) [1; 2] 0 2)), S (S (S h))))
  /\ (forall (Item : Type) (E : PyEq Item) (vs : list Item) h,
        fullmatch (map Literal vs) [] h = (Ok (Some (Match.mk h [] 0 0)), S h)).
Proof.
  split; [|split].
  - intros Item E vs items h m h' Hrun Hend.
    apply fullmatch_of_general_match; [exact Hrun|].
    apply has_next_at_end.
    rewrite (general_match_literals_items vs items h m h' Hrun). exact Hend.
  - intros h. reflexivity.
  - intros Item E vs h.
    apply fullmatch_of_general_match; [apply general_match_literals_empty|].
    reflexivity.
Qed.

(** The general statement at [fullmatch([1, 2, 3], [1, 2])]. *)
Lemma fullmatch_accepts_any_stop_at_end_witness :
  fullmatch (map Literal [1; 2; 3]) [1; 2] 0%nat
  = (Ok (Some (Match.mk 2 [1; 2] 0 2)), 3%nat).
Proof.
  apply (proj1 fullmatch_accepts_any_stop_at_end); reflexivity.
Defined.

(** C5, as stated, fails: a step function that reports 2 on a sequence of
    one item makes the step evaluator produce a state with end 2. *)
Lemma counted_step_leaves_bounds :
  in_bounds (Match.mk 0 [7] 0 0)
  /\ _test_one (Callable (fun _ => ret (RInt 2))) (Match.mk 0 [7] 0 0) 1%nat
     = (Ok (Some (Match.mk 1 [7] 0 2)), 2%nat)
  /\ ~ in_bounds (Match.mk 1 [7] 0 2).
Proof.
  split; [|split].
  - unfold in_bounds; cbn; lia.
  - reflexivity.
  - unfold in_bounds; cbn; lia.
Qed.

(** A literal, [one_or_more] of a predicate on the next item and an
    [optional] literal, over [[1, 2, 3]]. *)
Lemma respectful_matchers_keep_bounds_witness :
  exists m h',
    _general_match
      [Literal 1; one_or_more (on_next (fun x => x <? 3)); optional (Literal 9)]
      [1; 2; 3] 0 0%nat = (Ok m, h')
    /\ Match.items m = [1; 2; 3] /\ Match.start m = 0 /\ in_bounds m.
Proof.
  apply respectful_matchers_keep_bounds.
  - repeat constructor.
    + apply respectful_repeat, respectful_on_next.
    + apply respectful_optional. exact I.
  - cbn. lia.
Defined.

(** On [[1, 2]] the literal 1 applies once and then fails, so
    [repeat(1, min_n=2)] reports no match. *)
Lemma repeat_below_floor_fails_witness :
  fails_after (Literal 1) 1 (Match.mk 0 [1; 2] 0 0) 1%nat
  /\ exists h',
       _test_one (repeat (Literal 1) 2 None) (Match.mk 0 [1; 2] 0 0) 1%nat
       = (Ok None, h').
Proof.
  assert (fails_after (Literal 1) 1 (Match.mk 0 [1; 2] 0 0) 1%nat) as Hf.
  { eapply fails_later; [reflexivity|]. eapply fails_now. reflexivity. }
  split; [exact Hf|].
  apply (repeat_below_floor_fails (Literal 1) 2 None 1 _ _ Hf). lia.
Defined.

(** ** The views of a match: [matched], [rest], [next] and indexing *)

Section Views.
Context {Item : Type} `{PyEq Item}.

Lemma slice_index_inside (items : list Item) (i : Z) :
  0 <= i <= len items -> slice_index items i = Z.to_nat i.
Proof.
  intros Hi. unfold slice_index.
  replace (i <? 0) with false by (symmetry; apply Z.ltb_ge; lia).
  f_equal. lia.
Qed.

Lemma slice_index_beyond (items : list Item) (i : Z) :
  len items <= i -> slice_index items i = length items.
Proof.
  intros Hi. unfold slice_index.
  replace (i <? 0) with false by (symmetry; apply Z.ltb_ge; unfold len in *; lia).
  unfold len in *. lia.
Qed.

Lemma rest_skipn (m : Match.t Item) :
  0 <= Match.end_ m ->
  Match.rest m
  = skipn (Z.to_nat (Z.min (Match.end_ m) (len (Match.items m)))) (Match.items m).
Proof.
  intros He. unfold Match.rest, seq_slice, slice_index.
  replace (Match.end_ m <? 0) with false by (symmetry; apply Z.ltb_ge; lia).
  rewrite firstn_all. reflexivity.
Qed.

Lemma matched_rest_skipn (m : Match.t Item) :
  in_bounds m ->
  Match.matched m ++ Match.rest m
  = skipn (Z.to_nat (Match.start m)) (Match.items m).
Proof.
  intros (H0 & H1 & H2).
  rewrite rest_skipn by lia. rewrite Z.min_l by lia.
  unfold Match.matched, seq_slice.
  rewrite !slice_index_inside by lia.
  set (a := Z.to_nat (Match.start m)). set (b := Z.to_nat (Match.end_ m)).
  set (l := Match.items m).
  assert (a <= b)%nat as Hab by lia.
  rewrite <- (firstn_skipn b l) at 3.
  rewrite skipn_app.
  replace (a - length (firstn b l))%nat with O.
  - reflexivity.
  - rewrite length_firstn. unfold len in H2. fold l in H2. lia.
Qed.

Lemma matched_length (m : Match.t Item) :
  in_bounds m -> len (Match.matched m) = Match.end_ m - Match.start m.
Proof.
  intros (H0 & H1 & H2).
  unfold Match.matched, seq_slice. rewrite !slice_index_inside by lia.
  unfold len in *. rewrite length_skipn, length_firstn. lia.
Qed.

(** On a state within bounds the sequence is the items before [start], then
    [matched], then [rest]; [matched] has [end - start] items and [rest]
    has [len(items) - end].  On a state whose end has passed the length
    (with a start inside the sequence) [rest] is empty and [matched] is cut
    at the end of the sequence. *)
Theorem matched_and_rest_partition :
  (forall m : Match.t Item,
      in_bounds m ->
      Match.items m
      = firstn (Z.to_nat (Match.start m)) (Match.items m)
          ++ Match.matched m ++ Match.rest m
      /\ len (Match.matched m) = Match.end_ m - Match.start m
      /\ len (Match.rest m) = len (Match.items m) - Match.end_ m)
  /\ (forall m : Match.t Item,
        0 <= Match.start m <= len (Match.items m) ->
        len (Match.items m) <= Match.end_ m ->
        Match.rest m = []
        /\ Match.matched m = skipn (Z.to_nat (Match.start m)) (Match.items m)).
Proof.
  split.
  - intros m Hb. pose proof Hb as (H0 & H1 & H2). split; [|split].
    + rewrite (matched_rest_skipn m Hb). symmetry. apply firstn_skipn.
    + apply matched_length. exact Hb.
    + rewrite rest_skipn by lia. rewrite Z.min_l by lia.
      unfold len in *. rewrite length_skipn. lia.
  - intros m Hs He. split.
    + rewrite rest_skipn by (unfold len in *; lia). rewrite Z.min_r by lia.
      apply skipn_all2. unfold len. lia.
    + unfold Match.matched, seq_slice.
      rewrite slice_index_inside by lia.
      rewrite slice_index_beyond by lia.
      rewrite firstn_all. reflexivity.
Qed.

Lemma skipn_nth_error_cons (l : list Item) :
  forall n x, nth_error l n = Some x -> skipn n l = x :: skipn (S n) l.
Proof.
  induction l as [|y l IH]; intros [|n] x E; cbn in E |- *; try discriminate.
  - congruence.
  - apply IH. exact E.
Qed.

Lemma next_at (m : Match.t Item) h :
  0 <= Match.end_ m < len (Match.items m) ->
  exists x,
    nth_error (Match.items m) (Z.to_nat (Match.end_ m)) = Some x
    /\ Match.next m h = (Ok x, h).
Proof.
  intros He. unfold Match.next. rewrite Z.geb_leb.
  replace (len (Match.items m) <=? Match.end_ m) with false
    by (symmetry; apply Z.leb_gt; lia).
  unfold seq_getitem.
  replace (Match.end_ m <? 0) with false by (symmetry; apply Z.ltb_ge; lia).
  replace (0 <=? Match.end_ m) with true by (symmetry; apply Z.leb_le; lia).
  replace (Match.end_ m <? len (Match.items m)) with true
    by (symmetry; apply Z.ltb_lt; lia).
  cbn [andb].
  destruct (nth_error (Match.items m) (Z.to_nat (Match.end_ m))) as [x|] eqn:E.
  - exists x. split; reflexivity.
  - apply nth_error_None in E. unfold len in He. lia.
Qed.

Lemma next_past_end (m : Match.t Item) h :
  len (Match.items m) <= Match.end_ m ->
  Match.has_next m = false /\ Match.next m h = (Raise NoMoreItems, h).
Proof.
  intros He. unfold Match.has_next, Match.next. rewrite Z.geb_leb.
  replace (Match.end_ m <? len (Match.items m)) with false
    by (symmetry; apply Z.ltb_ge; lia).
  replace (len (Match.items m) <=? Match.end_ m) with true
    by (symmetry; apply Z.leb_le; lia).
  split; reflexivity.
Qed.

(** On a state whose end is not negative, [next] is the first item of
    [rest], and it raises [NoMoreItems] exactly when [rest] is empty;
    [has_next] tells the two cases apart. *)
Theorem next_is_head_of_rest (m : Match.t Item) (h : nat) :
  0 <= Match.end_ m ->
  match Match.rest m with
  | [] => Match.has_next m = false /\ Match.next m h = (Raise NoMoreItems, h)
  | x :: _ => Match.has_next m = true /\ Match.next m h = (Ok x, h)
  end.
Proof.
  intros He. rewrite rest_skipn by exact He.
  destruct (Z.lt_ge_cases (Match.end_ m) (len (Match.items m))) as [Hlt | Hge].
  - rewrite Z.min_l by lia.
    destruct (next_at m h (conj He Hlt)) as (x & Hx & Hnext).
    rewrite (skipn_nth_error_cons _ _ _ Hx).
    split; [|exact Hnext]. unfold Match.has_next. apply Z.ltb_lt. exact Hlt.
  - rewrite Z.min_r by lia.
    replace (Z.to_nat (len (Match.items m))) with (length (Match.items m))
      by (unfold len; lia).
    rewrite skipn_all. apply next_past_end. exact Hge.
Qed.

Lemma seq_getitem_nth (items : list Item) (i : Z) h :
  0 <= i < len items ->
  exists x, nth_error items (Z.to_nat i) = Some x
            /\ seq_getitem items i h = (Ok x, h).
Proof.
  intros Hi. unfold seq_getitem.
  replace (i <? 0) with false by (symmetry; apply Z.ltb_ge; lia).
  replace (0 <=? i) with true by (symmetry; apply Z.leb_le; lia).
  replace (i <? len items) with true by (symmetry; apply Z.ltb_lt; lia).
  cbn [andb].
  destruct (nth_error items (Z.to_nat i)) as [x|] eqn:E.
  - exists x. split; reflexivity.
  - apply nth_error_None in E. unfold len in Hi. lia.
Qed.

Lemma seq_getitem_beyond (items : list Item) (i : Z) h :
  len items <= i -> seq_getitem items i h = (Raise IndexError, h).
Proof.
  intros Hi. unfold seq_getitem.
  replace (i <? 0) with false by (symmetry; apply Z.ltb_ge; unfold len in *; lia).
  replace (i <? len items) with false by (symmetry; apply Z.ltb_ge; lia).
  rewrite andb_false_r. reflexivity.
Qed.

(** Indexing a match within bounds with [n >= 0] counts from its start
    through [matched] and on into [rest]: [match[n]] is item [n] of
    [matched + rest], hence item [n] of [matched] when [n < end - start];
    it raises [IndexError] only from [len(items) - start] on. *)
Theorem getitem_reads_matched_then_rest (m : Match.t Item) (n : Z) (h : nat) :
  in_bounds m ->
  0 <= n ->
  (Match.start m + n < len (Match.items m) ->
   exists x,
     Match.__getitem__ m n h = (Ok x, h)
     /\ nth_error (Match.matched m ++ Match.rest m) (Z.to_nat n) = Some x
     /\ (n < Match.end_ m - Match.start m ->
         nth_error (Match.matched m) (Z.to_nat n) = Some x))
  /\ (len (Match.items m) <= Match.start m + n ->
      Match.__getitem__ m n h = (Raise IndexError, h)).
Proof.
  intros Hb Hn. pose proof Hb as (H0 & H1 & H2). split.
  - intros Hin. unfold Match.__getitem__.
    destruct (seq_getitem_nth (Match.items m) (Match.start m + n) h)
      as (x & Hx & Hget); [lia|].
    exists x. split; [exact Hget|].
    assert (nth_error (Match.matched m ++ Match.rest m) (Z.to_nat n) = Some x)
      as Hall.
    { rewrite (matched_rest_skipn m Hb), nth_error_skipn.
      replace (Z.to_nat (Match.start m) + Z.to_nat n)%nat
        with (Z.to_nat (Match.start m + n)) by lia.
      exact Hx. }
    split; [exact Hall|].
    intros Hlt. rewrite nth_error_app1 in Hall; [exact Hall|].
    pose proof (matched_length m Hb) as Hlen.
    unfold len in Hlen. lia.
  - intros Hout. unfold Match.__getitem__. apply seq_getitem_beyond. exact Hout.
Qed.

End Views.

(** ** Negative ends and exceptions other than [NoMoreItems] *)

Section Errors.
Context {Item : Type} `{PyEq Item}.

Lemma next_wraps (m : Match.t Item) h :
  - len (Match.items m) <= Match.end_ m < 0 ->
  exists x,
    nth_error (Match.items m)
      (Z.to_nat (len (Match.items m) + Match.end_ m)) = Some x
    /\ Match.has_next m = true
    /\ Match.next m h = (Ok x, h).
Proof.
  intros He. unfold Match.has_next, Match.next. rewrite Z.geb_leb.
  assert (0 <= len (Match.items m)) as Hlen by (unfold len; lia).
  replace (Match.end_ m <? len (Match.items m)) with true
    by (symmetry; apply Z.ltb_lt; lia).
  replace (len (Match.items m) <=? Match.end_ m) with false
    by (symmetry; apply Z.leb_gt; lia).
  unfold seq_getitem.
  replace (Match.end_ m <? 0) with true by (symmetry; apply Z.ltb_lt; lia).
  replace (0 <=? Match.end_ m + len (Match.items m)) with true
    by (symmetry; apply Z.leb_le; lia).
  replace (Match.end_ m + len (Match.items m) <? len (Match.items m)) with true
    by (symmetry; apply Z.ltb_lt; lia).
  cbn [andb].
  replace (Match.end_ m + len (Match.items m))
    with (len (Match.items m) + Match.end_ m) by lia.
  destruct (nth_error (Match.items m)
              (Z.to_nat (len (Match.items m) + Match.end_ m))) as [x|] eqn:E.
  - exists x. repeat split.
  - apply nth_error_None in E. unfold len in *. lia.
Qed.

Lemma next_below (m : Match.t Item) h :
  Match.end_ m < - len (Match.items m) ->
  Match.has_next m = true /\ Match.next m h = (Raise IndexError, h).
Proof.
  intros He. unfold Match.has_next, Match.next. rewrite Z.geb_leb.
  assert (0 <= len (Match.items m)) as Hlen by (unfold len; lia).
  replace (Match.end_ m <? len (Match.items m)) with true
    by (symmetry; apply Z.ltb_lt; lia).
  replace (len (Match.items m) <=? Match.end_ m) with false
    by (symmetry; apply Z.leb_gt; lia).
  unfold seq_getitem.
  replace (Match.end_ m <? 0) with true by (symmetry; apply Z.ltb_lt; lia).
  replace (0 <=? Match.end_ m + len (Match.items m)) with false
    by (symmetry; apply Z.leb_gt; lia).
  split; reflexivity.
Qed.

(** A state whose end is negative still has a next item: [next] reads the
    sequence from the back (item [len(items) + end]) while
    [-len(items) <= end < 0], and below that it raises [IndexError], which
    a literal step does not catch. *)
Theorem next_with_negative_end :
  (forall (m : Match.t Item) h,
      - len (Match.items m) <= Match.end_ m < 0 ->
      exists x,
        nth_error (Match.items m)
          (Z.to_nat (len (Match.items m) + Match.end_ m)) = Some x
        /\ Match.has_next m = true
        /\ Match.next m h = (Ok x, h))
  /\ (forall (m : Match.t Item) (v : Item) h,
        Match.end_ m < - len (Match.items m) ->
        Match.has_next m = true
        /\ Match.next m h = (Raise IndexError, h)
        /\ _test_one (Literal v) m h = (Raise IndexError, h)).
Proof.
  split.
  - intros m h He. apply next_wraps. exact He.
  - intros m v h He. destruct (next_below m h He) as (Hn & Hx).
    split; [exact Hn|]. split; [exact Hx|].
    cbn [_test_one]. rewrite Hn. unfold bind. rewrite Hx. reflexivity.
Qed.

Lemma test_one_callable_raises
  (f : Match.t Item -> Py (MatcherResultType Item)) s h h' :
  f s h = (Raise IndexError, h') ->
  _test_one (Callable f) s h = (Raise IndexError, h').
Proof.
  intros Hf. cbn [_test_one]. unfold bind, try_except_NoMoreItems.
  rewrite Hf. reflexivity.
Qed.

Lemma repeat_required_raises (matcher : MatcherType Item) n s h h' :
  _test_one matcher s h = (Raise IndexError, h') ->
  repeat_required (S n) matcher s h = (Raise IndexError, h').
Proof.
  intros Hm. cbn [repeat_required]. unfold bind. rewrite Hm. reflexivity.
Qed.

(** Only [NoMoreItems] is turned into a failure.  An [IndexError] raised by
    a step function leaves the step evaluator as it is, and an [IndexError]
    that leaves the step evaluator for a matcher also leaves [optional] and
    [repeat] (with [min_n >= 1]) of that matcher, the sequential matcher,
    [fullmatch] and, on a sequence that is not empty, [search]. *)
Theorem other_exceptions_propagate :
  (forall (f : Match.t Item -> Py (MatcherResultType Item)) s h h',
      f s h = (Raise IndexError, h') ->
      _test_one (Callable f) s h = (Raise IndexError, h'))
  /\ (forall (matcher : MatcherType Item) s h h',
        _test_one matcher s h = (Raise IndexError, h') ->
        _test_one (optional matcher) s h = (Raise IndexError, h')
        /\ (forall k max_n, 1 <= k ->
              _test_one (repeat matcher k max_n) s h = (Raise IndexError, h'))
        /\ (forall rest,
              _general_match_loop (matcher :: rest) s h = (Raise IndexError, h')))
  /\ (forall (matcher : MatcherType Item) rest items h h',
        _test_one matcher (Match.mk h items 0 0) (S h) = (Raise IndexError, h') ->
        fullmatch (matcher :: rest) items h = (Raise IndexError, h')
        /\ (items <> [] ->
            search (matcher :: rest) items h = (Raise IndexError, h'))).
Proof.
  split; [|split].
  - intros f s h h' Hf. apply test_one_callable_raises. exact Hf.
  - intros matcher s h h' Hm. split; [|split].
    + apply test_one_callable_raises. unfold bind. rewrite Hm. reflexivity.
    + intros k max_n Hk. apply test_one_callable_raises.
      destruct (Z.to_nat k) as [|n] eqn:E; [lia|].
      unfold bind. rewrite (repeat_required_raises matcher n s h h' Hm).
      reflexivity.
    + intros rest. cbn [_general_match_loop]. unfold bind. rewrite Hm.
      reflexivity.
  - intros matcher rest items h h' Hm.
    assert (_general_match (matcher :: rest) items 0 h = (Raise IndexError, h'))
      as Hrun.
    { unfold _general_match, bind. cbn [Match.__init__ _general_match_loop].
      unfold bind. rewrite Hm. reflexivity. }
    split.
    + unfold fullmatch, bind. rewrite Hrun. reflexivity.
    + intros Hne. destruct items as [|x items']; [contradiction|].
      unfold search, bind, next, findall. cbn [g_items g_start g_matchers].
      replace (Z.to_nat (len (x :: items') - 0)) with (S (length items'))
        by (unfold len; cbn [length]; lia).
      cbn [findall_loop]. unfold bind. rewrite Hrun. reflexivity.
Qed.

End Errors.

(** The last item is read through a state with end [-1]; a literal step on
    a state with end [-3] over two items raises [IndexError]. *)
Lemma next_with_negative_end_witness :
  (exists x, nth_error [7; 8] (Z.to_nat (len [7; 8] + -1)) = Some x
             /\ Match.has_next (Match.mk 0 [7; 8] 0 (-1)) = true
             /\ Match.next (Match.mk 0 [7; 8] 0 (-1)) 1%nat = (Ok x, 1%nat))
  /\ _test_one (Literal 7) (Match.mk 0 [7; 8] 0 (-3)) 1%nat
     = (Raise IndexError, 1%nat).
Proof.
  split.
  - apply (proj1 next_with_negative_end (Match.mk 0 [7; 8] 0 (-1)) 1%nat).
    cbn. lia.
  - apply (proj2 next_with_negative_end (Match.mk 0 [7; 8] 0 (-3)) 7 1%nat).
    cbn. lia.
Defined.

(** A step function that indexes past the sequence ([lambda m: m[5]]) makes
    [fullmatch] raise [IndexError]. *)
Lemma other_exceptions_propagate_witness :
  fullmatch
    [Callable (fun m => x <- Match.__getitem__ m 5 ;; ret (RBool (x =? 0)));
     Literal 1]
    [7; 8] 0%nat
  = (Raise IndexError, 1%nat).
Proof.
  apply (proj2 (proj2 other_exceptions_propagate)). reflexivity.
Defined.

(** [matched] and [rest] of the match [[8, 9]] in [[7, 8, 9, 10]]. *)
Lemma matched_and_rest_partition_witness :
  [7; 8; 9; 10]
  = firstn 1 [7; 8; 9; 10]
      ++ Match.matched (Match.mk 0 [7; 8; 9; 10] 1 3)
      ++ Match.rest (Match.mk 0 [7; 8; 9; 10] 1 3)
  /\ len (Match.matched (Match.mk 0 [7; 8; 9; 10] 1 3)) = 3 - 1
  /\ len (Match.rest (Match.mk 0 [7; 8; 9; 10] 1 3)) = 4 - 3.
Proof.
  apply (proj1 matched_and_rest_partition (Match.mk 0 [7; 8; 9; 10] 1 3)).
  unfold in_bounds. cbn. lia.
Defined.

(** After the match [[7]] in [[7, 8, 9]] the next item is 8. *)
Lemma next_is_head_of_rest_witness :
  Match.has_next (Match.mk 0 [7; 8; 9] 0 1) = true
  /\ Match.next (Match.mk 0 [7; 8; 9] 0 1) 1%nat = (Ok 8, 1%nat).
Proof.
  apply (next_is_head_of_rest (Match.mk 0 [7; 8; 9] 0 1) 1%nat). cbn. lia.
Defined.

(** In [[7, 8, 9]] the match [[8]] (start 1, end 2) indexed with 1 reads
    the 9, which is the first item of its [rest]. *)
Lemma getitem_reads_matched_then_rest_witness :
  exists x,
    Match.__getitem__ (Match.mk 0 [7; 8; 9] 1 2) 1 1%nat = (Ok x, 1%nat)
    /\ nth_error (Match.matched (Match.mk 0 [7; 8; 9] 1 2)
                    ++ Match.rest (Match.mk 0 [7; 8; 9] 1 2)) (Z.to_nat 1)
       = Some x
    /\ Match.rest (Match.mk 0 [7; 8; 9] 1 2) = [x].
Proof.
  destruct (getitem_reads_matched_then_rest (Match.mk 0 [7; 8; 9] 1 2) 1 1%nat)
    as [Hin _].
  - unfold in_bounds. cbn. lia.
  - lia.
  - destruct Hin as (x & Hget & Hnth & _); [cbn; lia|].
    exists x. split; [exact Hget|]. split; [exact Hnth|].
    cbn in Hnth. injection Hnth as <-. reflexivity.
Defined.

(** ** Patterns of literals *)

Section Literals.
Context {Item : Type} `{PyEq Item}.

Lemma skipn_S_tail (l : list Item) :
  forall n x tl, skipn n l = x :: tl -> skipn (S n) l = tl.
Proof.
  induction l as [|y l IH]; intros [|n] x tl E; cbn in E |- *; try discriminate.
  - congruence.
  - apply (IH n x tl). exact E.
Qed.

(** A literal step on a state whose end is inside the sequence, read off
    the items from [end] on. *)
Lemma test_one_literal_at (v : Item) (s : Match.t Item) h :
  0 <= Match.end_ s <= len (Match.items s) ->
  _test_one (Literal v) s h
  = match skipn (Z.to_nat (Match.end_ s)) (Match.items s) with
    | x :: _ =>
        if py_eq x v
        then (Ok (Some (Match.mk h (Match.items s) (Match.start s)
                          (Match.end_ s + 1))), S h)
        else (Ok None, h)
    | [] => (Ok None, h)
    end.
Proof.
  intros He.
  destruct (Z.lt_ge_cases (Match.end_ s) (len (Match.items s))) as [Hlt | Hge].
  - destruct (next_at s h ltac:(lia)) as (x & Hx & Hnext).
    rewrite (skipn_nth_error_cons _ _ _ Hx).
    cbn [_test_one].
    replace (Match.has_next s) with true
      by (symmetry; apply Z.ltb_lt; exact Hlt).
    unfold bind at 1. unfold bind at 1. rewrite Hnext. unfold ret at 1.
    destruct (py_eq x v); reflexivity.
  - replace (Z.to_nat (Match.end_ s)) with (length (Match.items s))
      by (unfold len in *; lia).
    rewrite skipn_all. apply test_one_literal_exhausted.
    apply (next_past_end s h). lia.
Qed.

Lemma general_match_loop_literals (vs : list Item) :
  forall (s : Match.t Item) h,
    0 <= Match.end_ s <= len (Match.items s) ->
    exists m,
      _general_match_loop (map Literal vs) s h
      = (Ok m,
         (h + common_prefix vs
                (skipn (Z.to_nat (Match.end_ s)) (Match.items s)))%nat)
      /\ Match.items m = Match.items s
      /\ Match.start m = Match.start s
      /\ Match.end_ m
         = Match.end_ s
           + Z.of_nat (common_prefix vs
                         (skipn (Z.to_nat (Match.end_ s)) (Match.items s))).
Proof.
  induction vs as [|v vs IH]; intros s h He; cbn [map _general_match_loop].
  - exists s. cbn [common_prefix].
    replace (h + 0)%nat with h by lia.
    repeat split. lia.
  - unfold bind. rewrite (test_one_literal_at v s h He).
    destruct (skipn (Z.to_nat (Match.end_ s)) (Match.items s))
      as [|x tl] eqn:E; cbn [common_prefix].
    + exists s. replace (h + 0)%nat with h by lia. repeat split. lia.
    + destruct (py_eq x v).
      * assert (Match.end_ s < len (Match.items s)) as Hlt.
        { destruct (Z.lt_ge_cases (Match.end_ s) (len (Match.items s)))
            as [Hlt | Hge]; [exact Hlt|].
          rewrite skipn_all2 in E by (unfold len in *; lia). discriminate. }
        set (s1 := Match.mk h (Match.items s) (Match.start s) (Match.end_ s + 1)).
        destruct (IH s1 (S h)) as (m & Hrun & Hi & Hs & Hend).
        { cbn. lia. }
        cbn [Match.items Match.end_ Match.start s1] in Hrun, Hi, Hs, Hend.
        replace (Z.to_nat (Match.end_ s + 1)) with (S (Z.to_nat (Match.end_ s)))
          in Hrun, Hend by lia.
        rewrite (skipn_S_tail _ _ _ _ E) in Hrun, Hend.
        exists m. rewrite Hrun.
        replace (S h + common_prefix vs tl)%nat
          with (h + S (common_prefix vs tl))%nat by lia.
        repeat split; try assumption. lia.
      * exists s. replace (h + 0)%nat with h by lia. repeat split. lia.
Qed.

Lemma general_match_literals_prefix (vs items : list Item) st h :
  0 <= st <= len items ->
  exists m,
    _general_match (map Literal vs) items st h
    = (Ok m, S (h + common_prefix vs (skipn (Z.to_nat st) items)))
    /\ Match.items m = items
    /\ Match.start m = st
    /\ Match.end_ m
       = st + Z.of_nat (common_prefix vs (skipn (Z.to_nat st) items)).
Proof.
  intros Hst. unfold _general_match, bind. cbn [Match.__init__].
  destruct (general_match_loop_literals vs (Match.mk h items st st) (S h))
    as (m & Hrun & Hi & Hs & He); [cbn; lia|].
  cbn [Match.items Match.start Match.end_] in Hrun, Hi, Hs, He.
  exists m. rewrite Hrun. repeat split; assumption.
Qed.

(** From an offset inside the sequence, the sequential matcher over a list
    of literals consumes exactly the literals that equal, one by one from
    the first, the items from that offset on: it stops at the first
    difference or when the literals or the items run out, and returns the
    state reached there. *)
Theorem literals_consume_common_prefix (vs items : list Item) (st : Z) (h : nat) :
  0 <= st <= len items ->
  exists m h',
    _general_match (map Literal vs) items st h = (Ok m, h')
    /\ Match.items m = items
    /\ Match.start m = st
    /\ Match.end_ m
       = st + Z.of_nat (common_prefix vs (skipn (Z.to_nat st) items)).
Proof.
  intros Hst.
  destruct (general_match_literals_prefix vs items st h Hst) as (m & E & Hm).
  exists m. eexists. split; [exact E | exact Hm].
Qed.

Lemma common_prefix_le (vs : list Item) :
  forall items, (common_prefix vs items <= length items)%nat.
Proof.
  induction vs as [|v vs IH]; intros [|x items]; cbn; try lia.
  destruct (py_eq x v); [|lia]. specialize (IH items). lia.
Qed.

Lemma fullmatch_literals_eval (vs items : list Item) h :
  exists m h',
    _general_match (map Literal vs) items 0 h = (Ok m, h')
    /\ Match.items m = items /\ Match.start m = 0
    /\ Match.end_ m = Z.of_nat (common_prefix vs items)
    /\ fullmatch (map Literal vs) items h
       = (Ok (if (common_prefix vs items =? length items)%nat
              then Some m else None), h').
Proof.
  destruct (general_match_literals_prefix vs items 0 h) as (m & E & Hi & Hs & He).
  { unfold len. lia. }
  cbn [Z.to_nat skipn] in E, He.
  exists m. eexists. split; [exact E|].
  split; [exact Hi|]. split; [exact Hs|]. split; [lia|].
  unfold fullmatch, bind. rewrite E. unfold ret. cbn [Match.truth andb].
  unfold Match.has_next. rewrite Hi, He.
  pose proof (common_prefix_le vs items) as Hle.
  destruct (common_prefix vs items =? length items)%nat eqn:Ec.
  - apply Nat.eqb_eq in Ec.
    replace (0 + Z.of_nat (common_prefix vs items) <? len items) with false
      by (symmetry; apply Z.ltb_ge; unfold len; lia).
    reflexivity.
  - apply Nat.eqb_neq in Ec.
    replace (0 + Z.of_nat (common_prefix vs items) <? len items) with true
      by (symmetry; apply Z.ltb_lt; unfold len; lia).
    reflexivity.
Qed.

(** [fullmatch] over a list of literals succeeds exactly when every item of
    the sequence equals the literal at its position, that is, when the
    sequence is a prefix of the pattern: literals left over after the last
    item do not make it fail.  The match then spans the whole sequence;
    otherwise the result is no match. *)
Theorem fullmatch_literals_iff_items_prefix (vs items : list Item) (h : nat) :
  (common_prefix vs items = length items ->
   exists m h',
     fullmatch (map Literal vs) items h = (Ok (Some m), h')
     /\ Match.items m = items /\ Match.start m = 0
     /\ Match.end_ m = len items)
  /\ (common_prefix vs items <> length items ->
      exists h', fullmatch (map Literal vs) items h = (Ok None, h')).
Proof.
  destruct (fullmatch_literals_eval vs items h)
    as (m & h' & _ & Hi & Hs & He & Hfull).
  split; intros Hc.
  - exists m, h'. rewrite Hfull.
    replace (common_prefix vs items =? length items)%nat with true
      by (symmetry; apply Nat.eqb_eq; exact Hc).
    repeat split; try assumption. unfold len. lia.
  - exists h'. rewrite Hfull.
    replace (common_prefix vs items =? length items)%nat with false
      by (symmetry; apply Nat.eqb_neq; exact Hc).
    reflexivity.
Qed.

Lemma common_prefix_self (items extra : list Item) :
  (forall x, py_eq x x = true) ->
  common_prefix (items ++ extra) items = length items.
Proof.
  intros Hrefl. induction items as [|x items IH]; cbn.
  - destruct extra; reflexivity.
  - rewrite Hrefl. f_equal. exact IH.
Qed.

(** When [==] on the items is reflexive, the pattern made of the items of
    the sequence themselves fullmatches it, and so does that pattern
    followed by any further literals. *)
Theorem fullmatch_own_items (items extra : list Item) (h : nat) :
  (forall x : Item, py_eq x x = true) ->
  exists m h',
    fullmatch (map Literal (items ++ extra)) items h = (Ok (Some m), h')
    /\ Match.items m = items /\ Match.start m = 0
    /\ Match.end_ m = len items.
Proof.
  intros Hrefl.
  destruct (fullmatch_literals_eval (items ++ extra) items h)
    as (m & h' & _ & Hi & Hs & He & Hfull).
  rewrite (common_prefix_self items extra Hrefl) in Hfull, He.
  rewrite Nat.eqb_refl in Hfull.
  exists m, h'. repeat split; assumption.
Qed.

End Literals.

(** [[1, 2, 9]] against [[0, 1, 2, 3]] from offset 1: two literals match. *)
Lemma literals_consume_common_prefix_witness :
  exists m h',
    _general_match (map Literal [1; 2; 9]) [0; 1; 2; 3] 1 0%nat = (Ok m, h')
    /\ Match.items m = [0; 1; 2; 3]
    /\ Match.start m = 1
    /\ Match.end_ m = 3.
Proof.
  assert (0 <= 1 <= len [0; 1; 2; 3]) as Hst by (cbn; lia).
  exact (literals_consume_common_prefix [1; 2; 9] [0; 1; 2; 3] 1 0%nat Hst).
Defined.

(** [fullmatch([1, 2, 3], [1, 2])] succeeds; [fullmatch([1, 2], [1, 2, 3])]
    does not. *)
Lemma fullmatch_literals_iff_items_prefix_witness :
  (exists m h',
      fullmatch (map Literal [1; 2; 3]) [1; 2] 0%nat = (Ok (Some m), h')
      /\ Match.items m = [1; 2] /\ Match.start m = 0
      /\ Match.end_ m = len [1; 2])
  /\ (exists h', fullmatch (map Literal [1; 2]) [1; 2; 3] 0%nat = (Ok None, h')).
Proof.
  split.
  - apply (proj1 (fullmatch_literals_iff_items_prefix [1; 2; 3] [1; 2] 0%nat)).
    reflexivity.
  - apply (proj2 (fullmatch_literals_iff_items_prefix [1; 2] [1; 2; 3] 0%nat)).
    cbn. lia.
Defined.

(** Integer items: [fullmatch([4, 5, 6, 7], [4, 5])]. *)
Lemma fullmatch_own_items_witness :
  exists m h',
    fullmatch (map Literal ([4; 5] ++ [6; 7])) [4; 5] 0%nat = (Ok (Some m), h')
    /\ Match.items m = [4; 5] /\ Match.start m = 0
    /\ Match.end_ m = len [4; 5].
Proof.
  apply (fullmatch_own_items [4; 5] [6; 7] 0%nat).
  exact Z.eqb_refl.
Defined.

(** ** [optional], [zero_or_more] and the stop test of [repeat] *)

Section Combinators.
Context {Item : Type} `{PyEq Item}.

Lemma test_one_not_exhausted (matcher : MatcherType Item) s h h' :
  _test_one matcher s h = (Raise NoMoreItems, h') -> False.
Proof.
  intros E. pose proof (quiet_test_one matcher s h) as Hq.
  unfold raised_NoMoreItems in Hq. rewrite E in Hq. discriminate.
Qed.

Lemma test_one_optional (matcher : MatcherType Item) s h :
  _test_one (optional matcher) s h
  = match _test_one matcher s h with
    | (Ok (Some s'), h') => (Ok (Some s'), h')
    | (Ok None, h') => (Ok (Some s), h')
    | (Raise e, h') => (Raise e, h')
    end.
Proof.
  cbn [optional _test_one]. unfold bind, try_except_NoMoreItems.
  destruct (_test_one matcher s h) as [[[s'|] | e] h'] eqn:E; try reflexivity.
  destruct e; [|reflexivity].
  exfalso. exact (test_one_not_exhausted matcher s h h' E).
Qed.

(** [optional(m)] never reports a failure: where [m] succeeds it gives the
    state [m] gives, where [m] fails it gives back the state it was applied
    to (the same object), and an exception of [m] stays an exception. *)
Theorem optional_never_fails (matcher : MatcherType Item) (s : Match.t Item) (h : nat) :
  (forall s' h', _test_one matcher s h = (Ok (Some s'), h') ->
                 _test_one (optional matcher) s h = (Ok (Some s'), h'))
  /\ (forall h', _test_one matcher s h = (Ok None, h') ->
                 _test_one (optional matcher) s h = (Ok (Some s), h'))
  /\ (forall e h', _test_one matcher s h = (Raise e, h') ->
                   _test_one (optional matcher) s h = (Raise e, h'))
  /\ (forall h', _test_one (optional matcher) s h = (Ok None, h') -> False).
Proof.
  rewrite test_one_optional.
  destruct (_test_one matcher s h) as [[[s'|] | e] h0];
    repeat split; intros; congruence.
Qed.

Lemma repeat_greedy_outcome (matcher : MatcherType Item) (n : nat) :
  forall s h,
    (exists m h', repeat_greedy n matcher s h = (Ok m, h'))
    \/ (exists h', repeat_greedy n matcher s h = (Raise IndexError, h')).
Proof.
  induction n as [|n IH]; intros s h; cbn [repeat_greedy].
  - left. exists s, h. reflexivity.
  - unfold bind.
    destruct (_test_one matcher s h) as [[[m|] | e] h1] eqn:E.
    + destruct (Match.__eq__ m s).
      * left. exists s, h1. reflexivity.
      * apply IH.
    + left. exists s, h1. reflexivity.
    + destruct e.
      * exfalso. exact (test_one_not_exhausted matcher s h h1 E).
      * right. exists h1. reflexivity.
Qed.

(** [repeat(m, min_n)] with [min_n <= 0], and so [zero_or_more(m)], never
    reports a failure: the step evaluator gives a state, unless an
    application of [m] raises [IndexError]. *)
Theorem zero_or_more_never_fails
  (matcher : MatcherType Item) (min_n : Z) (max_n : option Z)
  (s : Match.t Item) (h : nat) :
  min_n <= 0 ->
  (exists m h', _test_one (repeat matcher min_n max_n) s h = (Ok (Some m), h'))
  \/ (exists h', _test_one (repeat matcher min_n max_n) s h
                 = (Raise IndexError, h')).
Proof.
  intros Hk. cbn [repeat _test_one].
  replace (Z.to_nat min_n) with O by lia. cbn [repeat_required].
  unfold bind, try_except_NoMoreItems, ret. cbn beta iota.
  match goal with
  | |- context [repeat_greedy ?n matcher s h] =>
      destruct (repeat_greedy_outcome matcher n s h)
        as [(m & h' & ->) | (h' & ->)]
  end.
  - left. exists m, h'. reflexivity.
  - right. exists h'. reflexivity.
Qed.

Lemma repeat_required_same
  (f : Match.t Item -> Py (MatcherResultType Item)) (s : Match.t Item) :
  (forall h, f s h = (Ok (RMatch s), h)) ->
  forall n h, repeat_required n (Callable f) s h = (Ok (Some s), h).
Proof.
  intros Hf. induction n as [|n IH]; intros h; cbn [repeat_required].
  - reflexivity.
  - unfold bind at 1. cbn [_test_one]. unfold bind at 1, try_except_NoMoreItems.
    rewrite Hf. unfold ret at 1. apply IH.
Qed.

Lemma repeat_greedy_same
  (f : Match.t Item -> Py (MatcherResultType Item)) (s : Match.t Item) :
  (forall h, f s h = (Ok (RMatch s), h)) ->
  forall n h, repeat_greedy n (Callable f) s h = (Ok s, h).
Proof.
  intros Hf. destruct n as [|n]; intros h; cbn [repeat_greedy].
  - reflexivity.
  - unfold bind at 1. cbn [_test_one]. unfold bind at 1, try_except_NoMoreItems.
    rewrite Hf. unfold ret at 1.
    unfold Match.__eq__, Match.is_. rewrite Nat.eqb_refl. reflexivity.
Qed.

(** The copy of a state made by [advance(0)], returned by a step function
    ([lambda m: m.advance(0)]). *)
Lemma repeat_greedy_copies (n : nat) :
  forall (s : Match.t Item) h,
    (Match.oid s < h)%nat ->
    exists m,
      repeat_greedy n
        (Callable (fun m => m' <- Match.advance m 0 ;; ret (RMatch m'))) s h
      = (Ok m, (h + n)%nat)
      /\ Match.items m = Match.items s
      /\ Match.start m = Match.start s
      /\ Match.end_ m = Match.end_ s.
Proof.
  induction n as [|n IH]; intros s h Hs; cbn [repeat_greedy].
  - exists s. replace (h + 0)%nat with h by lia. repeat split.
  - unfold bind at 1. cbn [_test_one].
    unfold bind at 1, try_except_NoMoreItems. unfold bind at 1.
    cbn [Match.advance Match.__init__]. unfold ret at 1. unfold ret at 1.
    unfold Match.__eq__, Match.is_. cbn [Match.oid].
    replace (h =? Match.oid s)%nat with false
      by (symmetry; apply Nat.eqb_neq; lia).
    destruct (IH (Match.mk h (Match.items s) (Match.start s) (Match.end_ s + 0))
                (S h)) as (m & Hrun & Hi & Hst & He).
    { cbn. lia. }
    exists m. rewrite Hrun.
    replace (S h + n)%nat with (h + S n)%nat by lia.
    cbn in Hi, Hst, He. repeat split; try assumption. lia.
Qed.

(** The stop test of [repeat] is the identity of the object.  A step
    function that returns the state it was given makes [repeat] return that
    state at once, whatever [min_n] and [max_n].  A step function that
    returns a copy with the same fields ([lambda m: m.advance(0)]) is not
    stopped: with [max_n] given it is applied [max_n] times, one new object
    each time, and the result has the fields of the first state. *)
Theorem repeat_stops_on_same_object_only :
  (forall (f : Match.t Item -> Py (MatcherResultType Item)) (s : Match.t Item)
          (min_n : Z) (max_n : option Z) (h : nat),
      (forall h0, f s h0 = (Ok (RMatch s), h0)) ->
      _test_one (repeat (Callable f) min_n max_n) s h = (Ok (Some s), h))
  /\ (forall (s : Match.t Item) (max_n : Z) (h : nat),
        (Match.oid s < h)%nat ->
        exists m,
          _test_one
            (repeat (Callable (fun m => m' <- Match.advance m 0 ;; ret (RMatch m')))
               0 (Some max_n)) s h
          = (Ok (Some m), (h + Z.to_nat max_n)%nat)
          /\ Match.items m = Match.items s
          /\ Match.start m = Match.start s
          /\ Match.end_ m = Match.end_ s).
Proof.
  split.
  - intros f s min_n max_n h Hf. cbn [repeat _test_one].
    unfold bind at 1, try_except_NoMoreItems. unfold bind at 1.
    rewrite (repeat_required_same f s Hf). unfold bind at 1.
    rewrite (repeat_greedy_same f s Hf). reflexivity.
  - intros s max_n h Hs. cbn [repeat _test_one].
    cbn [Z.to_nat repeat_required].
    replace (max_n - 0) with max_n by lia.
    destruct (repeat_greedy_copies (Z.to_nat max_n) s h Hs)
      as (m & E & Hm).
    exists m. split; [|exact Hm].
    unfold bind at 1, try_except_NoMoreItems. unfold bind at 1.
    unfold ret at 1. unfold bind at 1. rewrite E. reflexivity.
Qed.

End Combinators.

(** [zero_or_more(5)] on [[1, 2]]: the zero-width state. *)
Lemma zero_or_more_never_fails_witness :
  (exists m h',
      _test_one (zero_or_more (Literal 5)) (Match.mk 0 [1; 2] 0 0) 1%nat
      = (Ok (Some m), h'))
  \/ (exists h',
        _test_one (zero_or_more (Literal 5)) (Match.mk 0 [1; 2] 0 0) 1%nat
        = (Raise IndexError, h')).
Proof.
  apply (zero_or_more_never_fails (Literal 5) 0 None). lia.
Defined.

(** [zero_or_more(optional(9))] on [[1, 2]] returns the object it was given;
    three copies are made by [repeat(lambda m: m.advance(0), 0, 3)]. *)
Lemma repeat_stops_on_same_object_only_witness :
  _test_one (zero_or_more (optional (Literal 9))) (Match.mk 0 [1; 2] 0 0) 1%nat
  = (Ok (Some (Match.mk 0 [1; 2] 0 0)), 1%nat)
  /\ exists m,
       _test_one
         (repeat (Callable (fun m => m' <- Match.advance m 0 ;; ret (RMatch m')))
            0 (Some 3)) (Match.mk 0 [1; 2] 0 0) 1%nat
       = (Ok (Some m), 4%nat)
       /\ Match.items m = [1; 2] /\ Match.start m = 0 /\ Match.end_ m = 0.
Proof.
  split.
  - apply (proj1 repeat_stops_on_same_object_only). intros h0. reflexivity.
  - apply (proj2 repeat_stops_on_same_object_only (Match.mk 0 [1; 2] 0 0) 3 1%nat).
    cbn. lia.
Defined.

(** ** What [search] and [findall] deliver *)

Section Scanning.
Context {Item : Type} `{PyEq Item}.

Lemma next_first (matchers : list (MatcherType Item)) x items st h :
  0 <= st < len (x :: items) ->
  next (mkGenerator matchers (x :: items) st) h
  = match _general_match matchers (x :: items) st h with
    | (Ok m, h') =>
        (Ok (Some (m, mkGenerator matchers (x :: items) (Match.end_ m))), h')
    | (Raise e, h') => (Raise e, h')
    end.
Proof.
  intros Hst. rewrite next_unfold.
  replace (st <? len (x :: items)) with true
    by (symmetry; apply Z.ltb_lt; lia).
  unfold bind.
  destruct (_general_match matchers (x :: items) st h) as [[m | e] h'];
    reflexivity.
Qed.

(** [search] never looks beyond offset 0.  On the empty sequence it returns
    no match; on any other sequence it returns the state the sequential
    matcher reaches from offset 0, whether or not a matcher failed on the
    way, and it raises what the sequential matcher raises. *)
Theorem search_is_attempt_at_offset_zero :
  (forall (matchers : list (MatcherType Item)) h,
      search matchers [] h = (Ok None, h))
  /\ (forall (matchers : list (MatcherType Item)) x items h,
        search matchers (x :: items) h
        = match _general_match matchers (x :: items) 0 h with
          | (Ok m, h') => (Ok (Some m), h')
          | (Raise e, h') => (Raise e, h')
          end).
Proof.
  split.
  - intros. reflexivity.
  - intros matchers x items h. unfold search, findall, bind.
    rewrite next_first by (unfold len; cbn [length]; lia).
    destruct (_general_match matchers (x :: items) 0 h) as [[m | e] h'];
      reflexivity.
Qed.

Lemma next_offset (g : Generator Item) h m g' h' :
  next g h = (Ok (Some (m, g')), h') ->
  g' = mkGenerator (g_matchers g) (g_items g) (Match.end_ m).
Proof.
  unfold next.
  destruct (Z.to_nat (len (g_items g) - g_start g)) as [|k];
    cbn [findall_loop].
  - discriminate.
  - unfold bind.
    destruct (_general_match (g_matchers g) (g_items g) (g_start g) h)
      as [[m0 | e] h0]; cbn [Match.truth]; unfold ret; [|discriminate].
    intros [= <- <- <-]. reflexivity.
Qed.

Lemma islice_abutting (n : nat) :
  forall (g : Generator Item) h,
    Forall respectful (g_matchers g) ->
    0 <= g_start g ->
    exists ms h',
      islice n g h = (Ok ms, h')
      /\ abutting (g_start g) ms
      /\ Forall (fun m => Match.start m <= Match.end_ m
                          /\ Match.end_ m <= len (g_items g)) ms.
Proof.
  induction n as [|n IH]; intros g h HM Hst; cbn [islice].
  - exists [], h. split; [reflexivity|]. split; [exact I | constructor].
  - unfold bind at 1.
    destruct (next_in_bounds_gen g h HM Hst) as (r & h1 & E & Hr).
    rewrite E.
    destruct r as [[m g']|].
    + destruct (Hr m g' eq_refl) as (Hi & Hs & Hb & HM' & Hi' & Hst').
      pose proof (next_offset g h m g' h1 E) as Hg'.
      rewrite <- HM' in HM.
      destruct (IH g' h1 HM Hst') as (ms & h2 & E' & Hab & Hall).
      unfold bind. rewrite E'.
      exists (m :: ms), h2. split; [reflexivity|].
      split.
      * cbn [abutting]. split; [exact Hs|].
        rewrite Hg' in Hab. exact Hab.
      * constructor.
        -- destruct Hb as (_ & Hle & Hhi). rewrite Hi in Hhi. split; assumption.
        -- rewrite <- Hi'. exact Hall.
    + exists [], h1. split; [reflexivity|]. split; [exact I | constructor].
Qed.

(** Over respectful matchers the matches [findall] yields never overlap:
    the first starts at offset 0, each of the others starts exactly where
    the one before it ended, and none ends before it starts or after the
    end of the sequence. *)
Theorem findall_matches_abut
  (matchers : list (MatcherType Item)) (items : list Item) (n h : nat) :
  Forall respectful matchers ->
  exists ms h',
    islice n (findall matchers items) h = (Ok ms, h')
    /\ abutting 0 ms
    /\ Forall (fun m => Match.start m <= Match.end_ m
                        /\ Match.end_ m <= len items) ms.
Proof.
  intros HM.
  apply (islice_abutting n (findall matchers items) h HM). cbn. lia.
Qed.

End Scanning.

(** [findall([1, optional(2)], [1, 2, 1, 5])], first three matches. *)
Lemma findall_matches_abut_witness :
  exists ms h',
    islice 3 (findall [Literal 1; optional (Literal 2)] [1; 2; 1; 5]) 0%nat
    = (Ok ms, h')
    /\ abutting 0 ms
    /\ Forall (fun m => Match.start m <= Match.end_ m
                        /\ Match.end_ m <= len [1; 2; 1; 5]) ms.
Proof.
  apply (findall_matches_abut [Literal 1; optional (Literal 2)] [1; 2; 1; 5]).
  repeat constructor. apply respectful_optional. exact I.
Defined.

(** ** [repeat] over a literal *)

Section RepeatLiteral.
Context {Item : Type} `{PyEq Item}.
Variable v : Item.

Lemma leading_le (l : list Item) : (leading v l <= length l)%nat.
Proof.
  induction l as [|x l IH]; cbn; [lia|]. destruct (py_eq x v); lia.
Qed.

Lemma leading_skipn :
  forall (k : nat) (l : list Item),
    (k <= leading v l)%nat ->
    leading v (skipn k l) = (leading v l - k)%nat.
Proof.
  induction k as [|k IH]; intros l Hk.
  - cbn. lia.
  - destruct l as [|x l]; cbn in Hk |- *; [lia|].
    destruct (py_eq x v); [|lia].
    rewrite IH by lia. lia.
Qed.

Lemma nonempty_skipn_inside (l : list Item) (e : Z) x tl :
  0 <= e <= len l ->
  skipn (Z.to_nat e) l = x :: tl ->
  e < len l /\ skipn (Z.to_nat (e + 1)) l = tl.
Proof.
  intros He E. split.
  - destruct (Z.lt_ge_cases e (len l)) as [Hlt | Hge]; [exact Hlt|].
    rewrite skipn_all2 in E by (unfold len in *; lia). discriminate.
  - replace (Z.to_nat (e + 1)) with (S (Z.to_nat e)) by lia.
    apply (skipn_S_tail _ _ _ _ E).
Qed.

Lemma repeat_required_literal (n : nat) :
  forall (s : Match.t Item) h,
    0 <= Match.end_ s <= len (Match.items s) ->
    ((n <= leading v (skipn (Z.to_nat (Match.end_ s)) (Match.items s)))%nat ->
     exists m,
       repeat_required n (Literal v) s h = (Ok (Some m), (h + n)%nat)
       /\ Match.items m = Match.items s
       /\ Match.start m = Match.start s
       /\ Match.end_ m = Match.end_ s + Z.of_nat n
       /\ ((Match.oid s < h)%nat -> (Match.oid m < h + n)%nat))
    /\ ((leading v (skipn (Z.to_nat (Match.end_ s)) (Match.items s)) < n)%nat ->
        repeat_required n (Literal v) s h
        = (Ok None,
           (h + leading v (skipn (Z.to_nat (Match.end_ s)) (Match.items s)))%nat)).
Proof.
  induction n as [|n IH]; intros s h He; cbn [repeat_required].
  - split; [|lia]. intros _. exists s.
    replace (h + 0)%nat with h by lia. repeat split; [lia | auto].
  - unfold bind. rewrite (test_one_literal_at v s h He).
    destruct (skipn (Z.to_nat (Match.end_ s)) (Match.items s))
      as [|x tl] eqn:E; cbn [leading].
    + split; [lia|]. intros _. replace (h + 0)%nat with h by lia. reflexivity.
    + destruct (py_eq x v).
      * destruct (nonempty_skipn_inside _ _ _ _ He E) as (Hlt & Htl).
        set (s1 := Match.mk h (Match.items s) (Match.start s) (Match.end_ s + 1)).
        destruct (IH s1 (S h)) as (Hok & Hfail); [cbn; lia|].
        cbn [Match.items Match.end_ Match.start Match.oid s1] in Hok, Hfail.
        rewrite Htl in Hok, Hfail.
        split.
        -- intros Hn. destruct (Hok ltac:(lia)) as (m & E1 & Hi & Hs & Hend & Ho).
           exists m. rewrite E1.
           replace (S h + n)%nat with (h + S n)%nat by lia.
           repeat split; try assumption; [lia|].
           intros _. specialize (Ho ltac:(lia)). lia.
        -- intros Hn. rewrite (Hfail ltac:(lia)).
           replace (S h + leading v tl)%nat with (h + S (leading v tl))%nat by lia.
           reflexivity.
      * split; [lia|]. intros _. replace (h + 0)%nat with h by lia. reflexivity.
Qed.

Lemma repeat_greedy_literal (n : nat) :
  forall (s : Match.t Item) h,
    0 <= Match.end_ s <= len (Match.items s) ->
    (Match.oid s < h)%nat ->
    exists m,
      repeat_greedy n (Literal v) s h
      = (Ok m,
         (h + Nat.min n
                (leading v (skipn (Z.to_nat (Match.end_ s)) (Match.items s))))%nat)
      /\ Match.items m = Match.items s
      /\ Match.start m = Match.start s
      /\ Match.end_ m
         = Match.end_ s
           + Z.of_nat
               (Nat.min n
                  (leading v (skipn (Z.to_nat (Match.end_ s)) (Match.items s)))).
Proof.
  induction n as [|n IH]; intros s h He Ho; cbn [repeat_greedy].
  - exists s. cbn [Nat.min]. replace (h + 0)%nat with h by lia.
    repeat split. lia.
  - unfold bind. rewrite (test_one_literal_at v s h He).
    destruct (skipn (Z.to_nat (Match.end_ s)) (Match.items s))
      as [|x tl] eqn:E; cbn [leading].
    + exists s. rewrite Nat.min_0_r. replace (h + 0)%nat with h by lia.
      repeat split. lia.
    + destruct (py_eq x v).
      * destruct (nonempty_skipn_inside _ _ _ _ He E) as (Hlt & Htl).
        unfold Match.__eq__, Match.is_. cbn [Match.oid].
        replace (h =? Match.oid s)%nat with false
          by (symmetry; apply Nat.eqb_neq; lia).
        set (s1 := Match.mk h (Match.items s) (Match.start s) (Match.end_ s + 1)).
        destruct (IH s1 (S h)) as (m & E1 & Hi & Hs & Hend); [cbn; lia | cbn; lia |].
        cbn [Match.items Match.end_ Match.start s1] in E1, Hi, Hs, Hend.
        rewrite Htl in E1, Hend.
        exists m. rewrite E1. cbn [Nat.min].
        replace (S h + Nat.min n (leading v tl))%nat
          with (h + S (Nat.min n (leading v tl)))%nat by lia.
        repeat split; try assumption. lia.
      * exists s. rewrite Nat.min_0_r. replace (h + 0)%nat with h by lia.
        repeat split. lia.
Qed.

(** [repeat(v, min_n, max_n)] for a literal [v], applied by the step
    evaluator to an existing state whose end is inside the sequence, looks
    at the run of items equal to [v] that begins at [end].  When the run is
    shorter than [min_n] the result is no match.  Otherwise the result is a
    state with the same sequence and start that has consumed the whole run
    when [max_n] is [None], and the run cut to
    [min_n + (max_n - min_n)] items (either term counted as 0 when
    negative) when [max_n] is given. *)
Theorem repeat_literal_consumes_run
  (min_n : Z) (max_n : option Z) (s : Match.t Item) (h : nat) :
  0 <= Match.end_ s <= len (Match.items s) ->
  (Match.oid s < h)%nat ->
  let run := leading v (skipn (Z.to_nat (Match.end_ s)) (Match.items s)) in
  let cap :=
    match max_n with
    | Some mx => (Z.to_nat min_n + Z.to_nat (mx - min_n))%nat
    | None => run
    end in
  ((run < Z.to_nat min_n)%nat ->
   exists h', _test_one (repeat (Literal v) min_n max_n) s h = (Ok None, h'))
  /\ ((Z.to_nat min_n <= run)%nat ->
      exists m h',
        _test_one (repeat (Literal v) min_n max_n) s h = (Ok (Some m), h')
        /\ Match.items m = Match.items s
        /\ Match.start m = Match.start s
        /\ Match.end_ m = Match.end_ s + Z.of_nat (Nat.min run cap)).
Proof.
  intros He Ho run cap.
  destruct (repeat_required_literal (Z.to_nat min_n) s h He) as (Hok & Hfail).
  fold run in Hok, Hfail.
  split.
  - intros Hshort. eexists. cbn [repeat _test_one].
    unfold bind at 1, try_except_NoMoreItems. unfold bind at 1.
    rewrite (Hfail Hshort). reflexivity.
  - intros Hlong.
    destruct (Hok Hlong) as (m1 & E1 & Hi1 & Hs1 & He1 & Ho1).
    specialize (Ho1 Ho).
    pose proof (leading_le (skipn (Z.to_nat (Match.end_ s)) (Match.items s)))
      as Hrun.
    fold run in Hrun. rewrite length_skipn in Hrun.
    assert (leading v (skipn (Z.to_nat (Match.end_ m1)) (Match.items m1))
            = (run - Z.to_nat min_n)%nat) as Hrest.
    { rewrite Hi1, He1.
      replace (Z.to_nat (Match.end_ s + Z.of_nat (Z.to_nat min_n)))
        with (Z.to_nat min_n + Z.to_nat (Match.end_ s))%nat by lia.
      rewrite <- skipn_skipn. apply leading_skipn. exact Hlong. }
    match goal with
    | |- context [repeat (Literal v) min_n max_n] =>
        cbn [repeat _test_one]
    end.
    unfold bind at 1, try_except_NoMoreItems. unfold bind at 1.
    rewrite E1. unfold bind at 1.
    match goal with
    | |- context [repeat_greedy ?k (Literal v) m1 ?h1] =>
        destruct (repeat_greedy_literal k m1 h1) as (m & E & Hi & Hs & Hend);
          [rewrite Hi1, He1; unfold len in *; lia | exact Ho1 |];
          rewrite E
    end.
    exists m. eexists. split; [reflexivity|].
    split; [congruence|]. split; [congruence|].
    rewrite Hend, Hrest, He1, Hi1.
    subst cap. destruct max_n as [mx|]; unfold len in *; lia.
Qed.

End RepeatLiteral.

(** [repeat(7, 2, 3)] on [[7, 7, 7, 7, 1]] consumes three items;
    [repeat(7, 5)] reports no match. *)
Lemma repeat_literal_consumes_run_witness :
  (exists m h',
      _test_one (repeat (Literal 7) 2 (Some 3))
        (Match.mk 0 [7; 7; 7; 7; 1] 0 0) 1%nat = (Ok (Some m), h')
      /\ Match.items m = [7; 7; 7; 7; 1]
      /\ Match.start m = 0
      /\ Match.end_ m = 3)
  /\ exists h',
       _test_one (repeat (Literal 7) 5 None)
         (Match.mk 0 [7; 7; 7; 7; 1] 0 0) 1%nat = (Ok None, h').
Proof.
  assert (0 <= Match.end_ (Match.mk 0 [7; 7; 7; 7; 1] 0 0)
          <= len (Match.items (Match.mk 0 [7; 7; 7; 7; 1] 0 0))) as Hb
    by (cbn; lia).
  assert (Match.oid (Match.mk 0 [7; 7; 7; 7; 1] 0 0) < 1)%nat as Ho
    by (cbn; lia).
  split.
  - refine (proj2 (repeat_literal_consumes_run 7 2 (Some 3) _ 1%nat Hb Ho) _).
    cbn. lia.
  - refine (proj1 (repeat_literal_consumes_run 7 5 None _ 1%nat Hb Ho) _).
    cbn. lia.
Defined.

(** ** [fullmatch] and [search] on the same input *)

Section FullmatchSearch.
Context {Item : Type} `{PyEq Item}.

(** On a sequence that is not empty, whenever [fullmatch] succeeds [search]
    returns the same match, from the same run of the sequential matcher. *)
Theorem fullmatch_implies_search
  (matchers : list (MatcherType Item)) (x : Item) (items : list Item)
  (h : nat) (m : Match.t Item) (h' : nat) :
  fullmatch matchers (x :: items) h = (Ok (Some m), h') ->
  search matchers (x :: items) h = (Ok (Some m), h').
Proof.
  unfold fullmatch, search, findall, bind.
  rewrite next_first by (unfold len; cbn [length]; lia).
  destruct (_general_match matchers (x :: items) 0 h) as [[m0 | e] h0];
    [|discriminate].
  unfold ret. destruct (Match.truth m0 && negb (Match.has_next m0));
    [|discriminate].
  intros [= <- <-]. reflexivity.
Qed.

End FullmatchSearch.

(** [fullmatch([1, any(), 3], [1, 2, 3])] and [search] of the same. *)
Lemma fullmatch_implies_search_witness :
  search [Literal 1; any; Literal 3] [1; 2; 3] 0%nat
  = (Ok (Some (Match.mk 3 [1; 2; 3] 0 3)), 4%nat).
Proof.
  apply fullmatch_implies_search. reflexivity.
Defined.

(** [optional(9)] on [[1, 2]] gives back the state it was applied to. *)
Lemma optional_never_fails_witness :
  _test_one (optional (Literal 9)) (Match.mk 0 [1; 2] 0 0) 1%nat
  = (Ok (Some (Match.mk 0 [1; 2] 0 0)), 1%nat).
Proof.
  apply (proj1 (proj2 (optional_never_fails (Literal 9)
                         (Match.mk 0 [1; 2] 0 0) 1%nat))).
  reflexivity.
Defined.
